(** * Conda environment discovery: a shallow embedding of
      [src/client/interpreter/locators/services/condaEnvService.ts]

    The development follows the TypeScript class [CondaEnvService]:

    - JavaScript strings are modelled as [string], read as sequences of
      code units below 256; [split], [join], [trim] and [indexOf] are
      written out on that representation;
    - promises are modelled by their settled state ([Resolved] or
      [Rejected]), [then] by a bind;
    - the array referenced by the descriptor's [envs] field lives in a
      store of array objects ([gmap loc (list string)]), because
      [parseCondaInfo] pushes onto that very array;
    - everything the class takes from its platform (the [path] and [fs]
      modules, [JSON.parse], [child_process.execFile], [toUpperCase], and
      the constants imported from [./conda]) is a field of the class
      [Runtime]. *)

From Stdlib Require Import ZArith Ascii.
From stdpp Require Import gmap strings list sorting.

(** ** JavaScript string built-ins *)

Module Js.

(** [s.length > 0] *)
Definition nonEmpty (s : string) : bool := negb (Nat.eqb (String.length s) 0).

(** [s.split(sep)] for a separator of one code unit. The result always
    has at least one element: [''.split('.')] is [['']]. *)
Fixpoint split (sep : ascii) (s : string) : list string :=
  match s with
  | EmptyString => [EmptyString]
  | String c s' =>
      if Ascii.eqb c sep then EmptyString :: split sep s'
      else match split sep s' with
           | [] => [String c EmptyString]
           | w :: ws => String c w :: ws
           end
  end.

(** [parts.join(sep)] *)
Fixpoint join (sep : string) (parts : list string) : string :=
  match parts with
  | [] => ""
  | [p] => p
  | p :: ps => p +:+ sep +:+ join sep ps
  end.

(** [xs.filter((_, index) => p(index))] *)
Fixpoint filterIndexFrom {A} (p : nat -> bool) (i : nat) (xs : list A) : list A :=
  match xs with
  | [] => []
  | x :: xs' =>
      if p i then x :: filterIndexFrom p (S i) xs' else filterIndexFrom p (S i) xs'
  end.

Definition filterIndex {A} (p : nat -> bool) (xs : list A) : list A :=
  filterIndexFrom p 0 xs.

(** [item] is a prefix of [s]. *)
Fixpoint startsWith (item s : string) : bool :=
  match item, s with
  | EmptyString, _ => true
  | String a item', String b s' => Ascii.eqb a b && startsWith item' s'
  | String _ _, EmptyString => false
  end.

(** [s.indexOf(item)]: position of the first occurrence, [-1] if none. *)
Fixpoint indexOfFrom (item s : string) (i : Z) : Z :=
  if startsWith item s then i
  else match s with
       | EmptyString => (-1)%Z
       | String _ s' => indexOfFrom item s' (i + 1)%Z
       end.

Definition indexOf (item s : string) : Z := indexOfFrom item s 0.

(** White space and line terminators of ECMAScript among the code units
    below 256: TAB, LF, VT, FF, CR, SP and NBSP. *)
Definition isWhiteSpace (c : ascii) : bool :=
  let n := nat_of_ascii c in
  (Nat.leb 9 n && Nat.leb n 13) || Nat.eqb n 32 || Nat.eqb n 160.

Fixpoint trimStart (s : string) : string :=
  match s with
  | EmptyString => EmptyString
  | String c s' => if isWhiteSpace c then trimStart s' else s
  end.

Fixpoint reverse (s : string) : string :=
  match s with
  | EmptyString => EmptyString
  | String c s' => reverse s' +:+ String c EmptyString
  end.

Definition trimEnd (s : string) : string := reverse (trimStart (reverse s)).

(** [s.trim()] *)
Definition trim (s : string) : string := trimEnd (trimStart s).

(** [item] occurs in [s]. *)
Definition contains (s item : string) : Prop :=
  exists pre post, s = pre +:+ item +:+ post.

(** [a || ''] for an optional string: [undefined] and the empty string
    are both falsy. *)
Definition orEmpty (a : option string) : string := default "" a.

End Js.

(** ** Promises *)

(** What a promise can be rejected with. *)
Inductive Reason : Type :=
  | TypeError
  | OtherReason (message : string).

(** A promise is represented by its settled state. *)
Inductive Promise (A : Type) : Type :=
  | Resolved (value : A)
  | Rejected (reason : Reason).
Arguments Resolved {A} value.
Arguments Rejected {A} reason.

(** [p.then(f)] where [f] returns a promise. *)
Definition andThen {A B} (p : Promise A) (f : A -> Promise B) : Promise B :=
  match p with
  | Resolved a => f a
  | Rejected e => Rejected e
  end.

(** [p.then(f)] where [f] returns a plain value. *)
Definition thenMap {A B} (p : Promise A) (f : A -> B) : Promise B :=
  andThen p (fun a => Resolved (f a)).

(** [Promise.all(ps)] *)
Fixpoint Promise_all {A} (ps : list (Promise A)) : Promise (list A) :=
  match ps with
  | [] => Resolved []
  | p :: ps' => andThen p (fun a => thenMap (Promise_all ps') (cons a))
  end.

(** [xs.sort(cmp)]: the elements in ascending order of the comparator,
    equal elements keeping their relative order (the sort is stable). *)
Fixpoint insertSorted {A} (cmp : A -> A -> Z) (x : A) (xs : list A) : list A :=
  match xs with
  | [] => [x]
  | y :: xs' =>
      if (cmp x y <=? 0)%Z then x :: xs else y :: insertSorted cmp x xs'
  end.

Definition Array_sort {A} (cmp : A -> A -> Z) (xs : list A) : list A :=
  foldr (insertSorted cmp) [] xs.

(** ** Version comparison *)

Module VersionUtils.

(** Modelled from the spec: the value of a decimal digit, the first step
    of the numeric reading of a segment. *)
Definition digitValue (c : ascii) : option N :=
  let n := N_of_ascii c in
  if (48 <=? n)%N && (n <=? 57)%N then Some (n - 48)%N else None.

(** Modelled from the spec: the number a segment denotes, read from the
    decimal digits it starts with ([0] if there are none). *)
Fixpoint segmentValueFrom (acc : N) (s : string) : N :=
  match s with
  | EmptyString => acc
  | String c s' =>
      match digitValue c with
      | Some d => segmentValueFrom (10 * acc + d)%N s'
      | None => acc
      end
  end.

Definition segmentValue (s : string) : N := segmentValueFrom 0 s.

Definition segments (version : string) : list N :=
  map segmentValue (Js.split "." version).

(** Modelled from the spec: segment by segment, the first difference
    decides; a version that is a proper prefix of the other is the lower
    one. *)
Fixpoint compareSegments (a b : list N) : comparison :=
  match a, b with
  | [], [] => Eq
  | [], _ :: _ => Lt
  | _ :: _, [] => Gt
  | x :: a', y :: b' =>
      match N.compare x y with
      | Eq => compareSegments a' b'
      | c => c
      end
  end.

(** Modelled from the spec: [VersionUtils.compareVersion] of
    [common/versionUtils], which is not among the sources. The spec
    describes it as a dotted-numeric comparison, segment-wise and numeric
    ("3.10.2" is above "3.9.9"); the result is negative, zero or positive
    as a comparator for [sort]. *)
Definition compareVersion (versionA versionB : string) : Z :=
  match compareSegments (segments versionA) (segments versionB) with
  | Lt => (-1)%Z
  | Eq => 0%Z
  | Gt => 1%Z
  end.

End VersionUtils.

(** ** Data model *)

(** Modelled from the spec: [PythonInterpreter] of [interpreter/contracts],
    which is not among the sources; the spec gives its shape as
    [{path, displayName?, companyDisplayName?, version?}]. *)
Record PythonInterpreter : Type := {
  path : string;
  displayName : option string;
  companyDisplayName : option string;
  version : option string;
}.

(** The type [CondaInfo] (lines 10-17); every field is optional. [E] is
    what the field [envs] holds: the list itself in the JSON text, a
    reference to an array object once the text has been parsed. *)
Record CondaInfoOf (E : Type) : Type := {
  envs : option E;
  sys_version : option string;
  default_prefix : option string;
  conda_version : option string;
  python_version : option string;
  platform : option string;
}.
Arguments envs {E} _.
Arguments sys_version {E} _.
Arguments default_prefix {E} _.
Arguments conda_version {E} _.
Arguments python_version {E} _.
Arguments platform {E} _.

(** Array objects are identified by their address in the store. *)
Definition loc : Type := nat.

Abbreviation heap := (gmap loc (list string)).

Abbreviation CondaInfo := (CondaInfoOf loc).

(** What [JSON.parse] does with the standard output: it throws a
    [SyntaxError], or it returns a value. Of the values, the model covers
    [null] and the objects of the shape [CondaInfo]. *)
Inductive Parsed : Type :=
  | SyntaxError
  | ParsedNull
  | ParsedObject (info : CondaInfoOf (list string)).

(** The value that [parseCondaInfo] receives at run time: its annotation
    [info: CondaInfo] is erased, and the parser can hand it [null]. *)
Inductive InfoArg : Type :=
  | InfoNull
  | InfoObject (info : CondaInfo).

(** The secondary lookup service: [getInterpreters()] returns a promise
    of a list of interpreters. *)
Record IInterpreterLocatorService : Type := {
  getInterpreters : Promise (list PythonInterpreter);
}.

(** The object [CondaEnvService] with its constructor argument. *)
Record CondaEnvService : Type := {
  registryLookupForConda : option IInterpreterLocatorService;
}.

(** ** The platform *)

(** The constants imported from [./conda] (not among the sources) and the
    library functions the class calls. [path_join] takes the list of its
    arguments; [execFile] gives the standard output handed to the
    callback (its error argument is ignored by the caller). *)
Class Runtime : Type := {
  AnacondaCompanyName : string;
  AnacondaDisplayName : string;
  CONDA_RELATIVE_PY_PATH : list string;
  path_join : list string -> string;
  path_dirname : string -> string;
  path_basename : string -> string;
  toUpperCase : string -> string;
  pathExists : string -> bool;
  JSON_parse : string -> Parsed;
  execFile : string -> list string -> string;
}.

(** ** The store of array objects *)

(** [Array.isArray(v)] for the value of the field [envs]. *)
Definition isArray (h : heap) (v : option loc) : bool :=
  match v with
  | Some l => bool_decide (is_Some (h !! l))
  | None => false
  end.

(** The elements of the array at [l]. *)
Definition elements (h : heap) (l : loc) : list string := default [] (h !! l).

(** A new array object. *)
Definition alloc (xs : list string) (h : heap) : loc * heap :=
  let l := fresh (dom h) in (l, <[l := xs]> h).

(** [a.push(x)]: the array at [l] is updated in place. *)
Definition push (l : loc) (x : string) (h : heap) : heap :=
  <[l := elements h l ++ [x]]> h.

(** The object that [JSON.parse] builds from a descriptor text: its
    [envs] array is a new array object. *)
Definition allocInfo (d : CondaInfoOf (list string)) (h : heap) : CondaInfo * heap :=
  let '(e, h') :=
    match envs d with
    | Some xs => let '(l, h') := alloc xs h in (Some l, h')
    | None => (None, h)
    end in
  ({| envs := e;
      sys_version := sys_version d;
      default_prefix := default_prefix d;
      conda_version := conda_version d;
      python_version := python_version d;
      platform := platform d |}, h').

(** ** The class [CondaEnvService] *)

Section Service.

Context `{RT : Runtime}.

(** Lines 40-43. *)
Definition isCondaEnvironment (interpreter : PythonInterpreter) : bool :=
  (0 <=? Js.indexOf "ANACONDA" (toUpperCase (Js.orEmpty (displayName interpreter))))%Z
  || (0 <=? Js.indexOf "CONTINUUM" (toUpperCase (Js.orEmpty (companyDisplayName interpreter))))%Z.

(** [interpreter.version && interpreter.version.length > 0] (line 45). *)
Definition hasVersion (interpreter : PythonInterpreter) : bool :=
  match version interpreter with
  | Some v => Js.nonEmpty v
  | None => false
  end.

(** [a.version!] inside the comparator (line 47). *)
Definition versionOf (interpreter : PythonInterpreter) : string :=
  Js.orEmpty (version interpreter).

(** Lines 44-51; [None] is the [undefined] of the missing [return]. *)
Definition getLatestVersion (interpreters : list PythonInterpreter)
  : option PythonInterpreter :=
  let sortedInterpreters := List.filter hasVersion interpreters in
  let sortedInterpreters :=
    Array_sort (fun a b => VersionUtils.compareVersion (versionOf a) (versionOf b))
               sortedInterpreters in
  if (0 <? length sortedInterpreters)%nat then last sortedInterpreters else None.

(** The sibling of the interpreter that line 32 names. *)
Definition condaPathOf (condaInterpreter : option PythonInterpreter) : string :=
  match condaInterpreter with
  | Some i => path_join [path_dirname (path i); "conda.exe"]
  | None => "conda"
  end.

(** Lines 26-39. *)
Definition getCondaFile (this : CondaEnvService) : Promise string :=
  match registryLookupForConda this with
  | Some registry =>
      andThen
        (thenMap
           (thenMap
              (thenMap (getInterpreters registry) (List.filter isCondaEnvironment))
              getLatestVersion)
           condaPathOf)
        (fun condaPath =>
           thenMap (Resolved (pathExists condaPath))
                   (fun exists_ => if exists_ : bool then condaPath else "conda"))
  | None => Resolved "conda"
  end.

(** Lines 136-140; the parameter defaults to [''] when it is absent. *)
Definition getDisplayVersion (value : option string) : string :=
  let value := default "" value in
  Js.join "." (Js.filterIndex (fun index => (index <? 3)%nat) (Js.split "." value)).

(** Lines 141-152. [parsedValue] is computed and never read. *)
Definition getBitnessDisplayName (value : option string) : string :=
  let value := default "" value in
  let parsedValue :=
    if (0 <? Js.indexOf "-" value)%Z then Js.split "-" value !! 1%nat else Some value in
  let x64Values := ["64"; "x86"; "x86_64"] in
  if existsb (fun item => (0 <=? Js.indexOf item value)%Z) x64Values then "64 bit"
  else
    let x86Values := ["32"; "i686"; "i386"] in
    if existsb (fun item => (0 <=? Js.indexOf item value)%Z) x86Values then "32 bit"
    else value.

(** Lines 124-135. *)
Definition getDisplayNameFromSysVersion (versionInfo : option string) : string :=
  let versionInfo := default "" versionInfo in
  if negb (Js.nonEmpty versionInfo) then AnacondaDisplayName
  else
    let versionParts := map Js.trim (Js.split "|" versionInfo) in
    match versionParts !! 1%nat with
    | Some second =>
        if (1 <? length versionParts)%nat && (0 <=? Js.indexOf "conda" second)%Z
        then second
        else AnacondaDisplayName
    | None => AnacondaDisplayName
    end.

(** [bitnesAndVersion] of line 85. *)
Definition bitnesAndVersion (info : CondaInfo) : string :=
  let pythonVersion := getDisplayVersion (python_version info) in
  let bitness := getBitnessDisplayName (platform info) in
  Js.join ", " (List.filter Js.nonEmpty [bitness; pythonVersion]).

(** The last statement of [getDisplayName] (lines 94-97). *)
Definition joinedDisplayName (condaVersion bitnesAndVersion : string) : string :=
  Js.trim
    (Js.join " "
       (List.filter Js.nonEmpty
          [AnacondaCompanyName; condaVersion;
           if Js.nonEmpty bitnesAndVersion
           then "(" +:+ bitnesAndVersion +:+ ")" else ""])).

(** Lines 81-98. *)
Definition getDisplayName (info : CondaInfo) : string :=
  let condaVersion := Js.orEmpty (conda_version info) in
  let pythonVersion := getDisplayVersion (python_version info) in
  let bitnesAndVersion := bitnesAndVersion info in
  let joined := joinedDisplayName condaVersion bitnesAndVersion in
  if negb (Js.nonEmpty condaVersion) && negb (Js.nonEmpty pythonVersion)
     && negb (Js.nonEmpty bitnesAndVersion)
  then
    match sys_version info with
    | Some sysVersion => getDisplayNameFromSysVersion (Some sysVersion)
    | None => joined
    end
  else joined.

(** The array that lines 57-60 leave in [envs]: the descriptor's own
    array when it has one, else a new empty one; [default_prefix] is
    pushed onto it when it is a non-empty string. *)
Definition prepareEnvs (info : CondaInfo) (h : heap) : loc * heap :=
  let '(envs, h) :=
    match envs info with
    | Some l => if isArray h (Some l) then (l, h) else alloc [] h
    | None => alloc [] h
    end in
  match default_prefix info with
  | Some prefix => if Js.nonEmpty prefix then (envs, push envs prefix h) else (envs, h)
  | None => (envs, h)
  end.

(** The first [map] callback (lines 63-73). [env === info.default_prefix]
    compares a string with an optional string. *)
Definition interpreterFor (info : CondaInfo) (displayName : string) (env : string)
  : PythonInterpreter :=
  let interpreterDisplayName :=
    if bool_decide (Some env = default_prefix info) then displayName
    else displayName +:+ " (" +:+ path_basename env +:+ ")" in
  {| path := path_join (env :: CONDA_RELATIVE_PY_PATH);
     displayName := Some interpreterDisplayName;
     companyDisplayName := Some AnacondaCompanyName;
     version := None |}.

(** The second [map] callback (line 74): a promise of the record or of
    [null]. *)
Definition checkExists (env : PythonInterpreter) : Promise (option PythonInterpreter) :=
  thenMap (Resolved (pathExists (path env)))
          (fun exists_ => if exists_ : bool then Some env else None).

(** Lines 52-80, for a descriptor object. The store is threaded through:
    the call returns the promise and the store it leaves behind. *)
Definition parseCondaInfo (info : CondaInfo) (h : heap)
  : Promise (list PythonInterpreter) * heap :=
  let displayName := getDisplayName info in
  let '(envs, h) := prepareEnvs info h in
  let promises := map checkExists (map (interpreterFor info displayName) (elements h envs)) in
  (thenMap
     (thenMap (Promise_all promises) (List.filter (fun interpreter => bool_decide (is_Some interpreter))))
     (omap id),
   h).

(** [parseCondaInfo] for whatever value the caller passes. On [null] the
    first statement (line 53) reads [info.conda_version] inside
    [getDisplayName] (line 82), which throws a [TypeError]; the function
    being [async], the caller gets a rejected promise and no exception. *)
Definition parseCondaInfoArg (arg : InfoArg) (h : heap)
  : Promise (list PythonInterpreter) * heap :=
  match arg with
  | InfoNull => (Rejected TypeError, h)
  | InfoObject info => parseCondaInfo info h
  end.

(** The callback of [execFile] (lines 104-120). [resolve(p)] with a
    promise [p] settles the outer promise as [p] settles; the [catch]
    sees what [JSON.parse] throws and nothing that happens in [p]. *)
Definition onExecFile (stdout : string) (h : heap)
  : Promise (list PythonInterpreter) * heap :=
  if Nat.eqb (String.length stdout) 0 then (Resolved [], h)
  else
    match JSON_parse stdout with
    | SyntaxError => (Resolved [], h)
    | ParsedNull => parseCondaInfoArg InfoNull h
    | ParsedObject d =>
        let '(info, h') := allocInfo d h in parseCondaInfoArg (InfoObject info) h'
    end.

(** Lines 99-123. *)
Definition getSuggestionsFromConda (this : CondaEnvService) (h : heap)
  : Promise (list PythonInterpreter) * heap :=
  match getCondaFile this with
  | Resolved condaFile => onExecFile (execFile condaFile ["info"; "--json"]) h
  | Rejected e => (Rejected e, h)
  end.

(** Lines 21-23; the argument [resource] is not used. *)
Definition CondaEnvService_getInterpreters (this : CondaEnvService) (h : heap)
  : Promise (list PythonInterpreter) * heap :=
  getSuggestionsFromConda this h.

End Service.

(** ** A sample platform

    A POSIX-like instance of [Runtime] on which the definitions can be
    run: paths are joined with a slash and are not normalised, the file
    system is the list of the files that exist, and the parser is the
    table of the texts it is asked to parse. *)

Module Sample.

Definition upperChar (c : ascii) : ascii :=
  let n := nat_of_ascii c in
  if Nat.leb 97 n && Nat.leb n 122 then ascii_of_nat (n - 32) else c.

Fixpoint upper (s : string) : string :=
  match s with
  | EmptyString => EmptyString
  | String c s' => String (upperChar c) (upper s')
  end.

Definition join (parts : list string) : string := Js.join "/" parts.

Definition basename (p : string) : string :=
  default "" (last (Js.split "/" p)).

Definition dirname (p : string) : string :=
  let parts := Js.split "/" p in
  Js.join "/" (take (length parts - 1) parts).

Definition lookupText (table : list (string * Parsed)) (text : string) : Parsed :=
  match List.find (fun entry => String.eqb (fst entry) text) table with
  | Some entry => snd entry
  | None => SyntaxError
  end.

Definition runtime (files : list string) (table : list (string * Parsed))
    (stdout : string) : Runtime :=
  {| AnacondaCompanyName := "Continuum Analytics, Inc.";
     AnacondaDisplayName := "Anaconda";
     CONDA_RELATIVE_PY_PATH := ["bin"; "python"];
     path_join := join;
     path_dirname := dirname;
     path_basename := basename;
     toUpperCase := upper;
     pathExists := fun p => bool_decide (p ∈ files);
     JSON_parse := lookupText table;
     execFile := fun _ _ => stdout |}.

Definition noInfo {E} : CondaInfoOf E :=
  {| envs := None; sys_version := None; default_prefix := None;
     conda_version := None; python_version := None; platform := None |}.

Definition interpreter (p : string) (name company ver : option string)
  : PythonInterpreter :=
  {| path := p; displayName := name; companyDisplayName := company; version := ver |}.

(** The files of the sample file system. *)
Definition files : list string :=
  ["/opt/conda/bin/python"; "/opt/conda/envs/foo/bin/python";
   "/opt/anaconda/conda.exe"].

(** The texts the sample parser knows; any other text is a syntax error. *)
Definition texts : list (string * Parsed) :=
  [("null", ParsedNull); ("{}", ParsedObject noInfo)].

(** The sample platform whose [conda] prints [stdout]. *)
Definition printing (stdout : string) : Runtime := runtime files texts stdout.

(** A descriptor with one environment besides the root. *)
Definition fooInfo : CondaInfo :=
  {| envs := Some 0; sys_version := None; default_prefix := Some "/opt/conda";
     conda_version := Some "4.3.1"; python_version := Some "3.6.1.2";
     platform := Some "linux-64" |}.

(** A store in which the array of [fooInfo] holds two environments, the
    second of which has no interpreter. *)
Definition fooHeap : heap := {[ 0 := ["/opt/conda/envs/foo"; "/nope"] ]}.

(** A descriptor with nothing but [sys.version]. *)
Definition sysInfo : CondaInfo :=
  {| envs := None;
     sys_version := Some "3.6.1 |Anaconda 4.4.0 (64-bit)| (default, ...)";
     default_prefix := None; conda_version := None; python_version := None;
     platform := None |}.

Definition anaconda : PythonInterpreter :=
  interpreter "/opt/anaconda/python.exe" (Some "Anaconda 4.4.0") None (Some "3.10.0").

Definition olderAnaconda : PythonInterpreter :=
  interpreter "/usr/local/python.exe" (Some "Anaconda 4.3.0") None (Some "3.8.0").

Definition cpython : PythonInterpreter :=
  interpreter "/usr/bin/python" (Some "CPython") None (Some "3.11.0").

Definition unversioned : PythonInterpreter :=
  interpreter "/usr/bin/python2" None (Some "Continuum Analytics") None.

(** A descriptor with the root environment only. *)
Definition rootInfo : CondaInfo :=
  {| envs := None; sys_version := None; default_prefix := Some "/opt/conda";
     conda_version := None; python_version := None; platform := None |}.

(** The descriptor text of which [fooInfo] is the object. *)
Definition fooText : CondaInfoOf (list string) :=
  {| envs := Some ["/opt/conda/envs/foo"; "/nope"]; sys_version := None;
     default_prefix := Some "/opt/conda"; conda_version := Some "4.3.1";
     python_version := Some "3.6.1.2"; platform := Some "linux-64" |}.

(** The sample platform whose parser also knows the text "foo" as
    [fooText], and whose [conda] prints [stdout]. *)
Definition discovering (stdout : string) : Runtime :=
  runtime files (("foo", ParsedObject fooText) :: texts) stdout.

End Sample.

(** ** Vocabulary of the specification *)

(** The platform string names a 64-bit architecture. *)
Definition names64 (value : string) : Prop :=
  Js.contains value "64" \/ Js.contains value "x86" \/ Js.contains value "x86_64".

(** The platform string names a 32-bit architecture. *)
Definition names32 (value : string) : Prop :=
  Js.contains value "32" \/ Js.contains value "i686" \/ Js.contains value "i386".

(** Every entry of [envs], if the field holds an array. *)
Definition envsOf (h : heap) (info : CondaInfo) : list string :=
  match envs info with
  | Some l => elements h l
  | None => []
  end.

(** [default_prefix], if it is present and non-empty. *)
Definition prefixOf (info : CondaInfo) : list string :=
  match default_prefix info with
  | Some prefix => if Js.nonEmpty prefix then [prefix] else []
  | None => []
  end.

(** A service with the given secondary lookup service. *)
Definition serviceWith (interpreters : Promise (list PythonInterpreter))
  : CondaEnvService :=
  {| registryLookupForConda := Some {| getInterpreters := interpreters |} |}.

(** A service without secondary lookup service. *)
Definition serviceAlone : CondaEnvService :=
  {| registryLookupForConda := None |}.

(** The code unit [c] occurs in [s]. *)
Fixpoint occurs (c : ascii) (s : string) : bool :=
  match s with
  | EmptyString => false
  | String a s' => Ascii.eqb a c || occurs c s'
  end.

(** The descriptor with another [sys.version]. *)
Definition withSysVersion (sysVersion : option string) (info : CondaInfo)
  : CondaInfo :=
  {| envs := envs info;
     sys_version := sysVersion;
     default_prefix := default_prefix info;
     conda_version := conda_version info;
     python_version := python_version info;
     platform := platform info |}.

(** The fields of a descriptor text other than [envs]. *)
Definition scalarsOf (d : CondaInfoOf (list string)) : CondaInfo :=
  {| envs := None;
     sys_version := sys_version d;
     default_prefix := default_prefix d;
     conda_version := conda_version d;
     python_version := python_version d;
     platform := platform d |}.

(** The records of the candidates whose interpreter exists, in the order
    of the candidates. *)
Definition recordsOf `{RT : Runtime} (info : CondaInfo) (candidates : list string)
  : list PythonInterpreter :=
  map (interpreterFor info (getDisplayName info))
    (List.filter
       (fun env => pathExists (path_join (env :: CONDA_RELATIVE_PY_PATH)))
       candidates).

(** * Properties *)

(** ** Strings *)

Lemma startsWith_spec (item s : string) :
  Js.startsWith item s = true <-> exists post, s = item +:+ post.
Proof.
  revert s. induction item as [|a item IH]; intros s; simpl.
  - split; [intros _; by exists s | done].
  - destruct s as [|b s]; simpl.
    + split; [done | intros [post Hpost]; discriminate].
    + rewrite andb_true_iff, Ascii.eqb_eq, IH. split.
      * intros [-> [post ->]]. by exists post.
      * intros [post Hpost]. injection Hpost as -> ->. eauto.
Qed.

Lemma contains_here (item s : string) :
  Js.startsWith item s = true -> Js.contains s item.
Proof.
  intros [post ->]%startsWith_spec. by exists "", post.
Qed.

Lemma contains_cons (item : string) (c : ascii) (s : string) :
  Js.startsWith item (String c s) = false ->
  Js.contains (String c s) item <-> Js.contains s item.
Proof.
  intros Hno. split.
  - intros [pre [post Heq]]. destruct pre as [|c' pre]; simpl in Heq.
    + assert (Js.startsWith item (String c s) = true) as Hyes
        by (apply startsWith_spec; eauto).
      congruence.
    + injection Heq as _ ->. by exists pre, post.
  - intros [pre [post ->]]. by exists (String c pre), post.
Qed.

Lemma indexOfFrom_found (item s : string) (i : Z) :
  (0 <= i)%Z -> (0 <= Js.indexOfFrom item s i)%Z <-> Js.contains s item.
Proof.
  revert i. induction s as [|c s IH]; intros i Hi; simpl;
    destruct (Js.startsWith item _) eqn:Hstart.
  - split; [intros _; by apply contains_here | done].
  - split; [lia |].
    intros [pre [post Heq]]. destruct pre; [|discriminate].
    assert (Js.startsWith item "" = true) as Hyes
      by (apply startsWith_spec; eauto).
    congruence.
  - split; [intros _; by apply contains_here | done].
  - rewrite IH by lia. by rewrite contains_cons.
Qed.

(** [s.indexOf(item) >= 0] says that [item] occurs in [s]. *)
Lemma indexOf_contains (item s : string) :
  (0 <=? Js.indexOf item s)%Z = true <-> Js.contains s item.
Proof.
  rewrite Z.leb_le. by apply indexOfFrom_found.
Qed.

Lemma indexOf_not_contains (item s : string) :
  (0 <=? Js.indexOf item s)%Z = false <-> ~ Js.contains s item.
Proof.
  rewrite <- indexOf_contains. by destruct (0 <=? _)%Z.
Qed.

Lemma nonEmpty_false (s : string) : Js.nonEmpty s = false <-> s = "".
Proof. destruct s; unfold Js.nonEmpty; simpl; split; congruence. Qed.

Lemma nonEmpty_true (s : string) : Js.nonEmpty s = true <-> s <> "".
Proof. destruct s; unfold Js.nonEmpty; simpl; split; congruence. Qed.

(** Keeping the indices below [n] keeps the first [n] elements. *)
Lemma filterIndexFrom_below {A} (n i : nat) (xs : list A) :
  Js.filterIndexFrom (fun index => (index <? n)%nat) i xs = take (n - i) xs.
Proof.
  revert i. induction xs as [|x xs IH]; intros i; simpl.
  - by rewrite take_nil.
  - destruct (i <? n)%nat eqn:Hlt.
    + apply Nat.ltb_lt in Hlt. rewrite IH.
      replace (n - i) with (S (n - S i)) by lia. done.
    + apply Nat.ltb_ge in Hlt. rewrite IH.
      replace (n - i) with 0 by lia. replace (n - S i) with 0 by lia.
      by destruct xs.
Qed.

(** [getDisplayVersion] keeps the first three segments of the version. *)
Lemma getDisplayVersion_take (value : string) :
  getDisplayVersion (Some value) = Js.join "." (take 3 (Js.split "." value)).
Proof.
  unfold getDisplayVersion, Js.filterIndex. cbn [default from_option id].
  by rewrite filterIndexFrom_below.
Qed.

Lemma getDisplayVersion_example :
  getDisplayVersion (Some "3.6.1.2") = "3.6.1" /\ getDisplayVersion None = "".
Proof. by vm_compute. Qed.

(** ** Bitness *)

Lemma existsb_indexOf3 (a b c value : string) :
  existsb (fun item => (0 <=? Js.indexOf item value)%Z) [a; b; c] = true
  <-> Js.contains value a \/ Js.contains value b \/ Js.contains value c.
Proof.
  simpl. rewrite orb_false_r, !orb_true_iff, !indexOf_contains. tauto.
Qed.

Lemma getBitnessDisplayName_cases (value : string) :
  (names64 value /\ getBitnessDisplayName (Some value) = "64 bit")
  \/ (~ names64 value /\ names32 value /\ getBitnessDisplayName (Some value) = "32 bit")
  \/ (~ names64 value /\ ~ names32 value /\ getBitnessDisplayName (Some value) = value).
Proof.
  unfold getBitnessDisplayName, names64, names32. cbn [default from_option id].
  destruct (existsb _ ["64"; "x86"; "x86_64"]) eqn:H64.
  - left. split; [by apply existsb_indexOf3 | done].
  - assert (~ (Js.contains value "64" \/ Js.contains value "x86"
               \/ Js.contains value "x86_64")) as Hno64.
    { rewrite <- existsb_indexOf3. congruence. }
    right. destruct (existsb _ ["32"; "i686"; "i386"]) eqn:H32.
    + left. split; [done |]. split; [by apply existsb_indexOf3 | done].
    + right. split; [done |]. split; [| done].
      rewrite <- existsb_indexOf3. congruence.
Qed.

(** C8. For every platform string, [getBitnessDisplayName] returns
    "64 bit" when the string contains one of "64", "x86", "x86_64";
    otherwise "32 bit" when it contains one of "32", "i686", "i386"; and
    otherwise the string itself, unchanged, the empty string included.
    "linux-64" gives "64 bit", "osx-32" gives "32 bit" and "noarch" gives
    "noarch". *)
Theorem getBitnessDisplayName_spec :
  (forall value : string,
      (names64 value -> getBitnessDisplayName (Some value) = "64 bit")
      /\ (~ names64 value -> names32 value ->
          getBitnessDisplayName (Some value) = "32 bit")
      /\ (~ names64 value -> ~ names32 value ->
          getBitnessDisplayName (Some value) = value))
  /\ getBitnessDisplayName (Some "linux-64") = "64 bit"
  /\ getBitnessDisplayName (Some "osx-32") = "32 bit"
  /\ getBitnessDisplayName (Some "noarch") = "noarch"
  /\ getBitnessDisplayName (Some "") = "".
Proof.
  split; [| by vm_compute].
  intros value.
  destruct (getBitnessDisplayName_cases value)
    as [[H64 ->] | [[Hn64 [H32 ->]] | [Hn64 [Hn32 ->]]]]; tauto.
Qed.

(** The three branches of [getBitnessDisplayName_spec] on the strings of
    the specification: what each contains is exhibited, what it does not
    contain is decided by [indexOf]. *)
Lemma getBitnessDisplayName_spec_witness :
  (names64 "linux-64" /\ getBitnessDisplayName (Some "linux-64") = "64 bit")
  /\ (~ names64 "osx-32" /\ names32 "osx-32"
      /\ getBitnessDisplayName (Some "osx-32") = "32 bit")
  /\ (~ names64 "noarch" /\ ~ names32 "noarch"
      /\ getBitnessDisplayName (Some "noarch") = "noarch").
Proof.
  assert (names64 "linux-64") as H1.
  { left. by exists "linux-", "". }
  assert (~ names64 "osx-32") as H2.
  { intros [H | [H | H]]; apply indexOf_contains in H; vm_compute in H; discriminate. }
  assert (names32 "osx-32") as H3.
  { left. by exists "osx-", "". }
  assert (~ names64 "noarch") as H4.
  { intros [H | [H | H]]; apply indexOf_contains in H; vm_compute in H; discriminate. }
  assert (~ names32 "noarch") as H5.
  { intros [H | [H | H]]; apply indexOf_contains in H; vm_compute in H; discriminate. }
  destruct getBitnessDisplayName_spec as [Hall _].
  split; [split; [exact H1 | exact (proj1 (Hall "linux-64") H1)] |].
  split; [split; [exact H2 | split; [exact H3 |
                   exact (proj1 (proj2 (Hall "osx-32")) H2 H3)]] |].
  split; [exact H4 | split; [exact H5 |
                   exact (proj2 (proj2 (Hall "noarch")) H4 H5)]].
Defined.

(** ** Display names *)

Lemma trim_empty : Js.trim "" = "".
Proof. reflexivity. Qed.

(** With nothing but the company name to join, the last statement of
    [getDisplayName] returns the company name, trimmed. *)
Lemma joinedDisplayName_empty `{RT : Runtime} :
  joinedDisplayName "" "" = Js.trim AnacondaCompanyName.
Proof.
  unfold joinedDisplayName. simpl.
  destruct (Js.nonEmpty AnacondaCompanyName) eqn:Hne; simpl; [done |].
  apply nonEmpty_false in Hne. by rewrite Hne.
Qed.

(** When the three parts are empty, [getDisplayName] is decided by
    [sys.version] alone. *)
Lemma getDisplayName_all_empty `{RT : Runtime} (info : CondaInfo) :
  Js.orEmpty (conda_version info) = "" ->
  getDisplayVersion (python_version info) = "" ->
  bitnesAndVersion info = "" ->
  getDisplayName info =
    match sys_version info with
    | Some sysVersion => getDisplayNameFromSysVersion (Some sysVersion)
    | None => Js.trim AnacondaCompanyName
    end.
Proof.
  intros Hconda Hpython Hbitness. unfold getDisplayName.
  rewrite Hconda, Hpython, Hbitness. simpl.
  destruct (sys_version info); [done | apply joinedDisplayName_empty].
Qed.

Lemma split_nonempty (sep : ascii) (s : string) : Js.split sep s <> [].
Proof.
  destruct s as [|c s]; simpl; [done |].
  destruct (Ascii.eqb c sep); [done |]. by destruct (Js.split sep s).
Qed.

Lemma split_empty (sep : ascii) : Js.split sep "" = [""].
Proof. reflexivity. Qed.

(** [getDisplayNameFromSysVersion] in terms of the trimmed segments. *)
Lemma getDisplayNameFromSysVersion_parts `{RT : Runtime} (sysVersion : string) :
  let versionParts := map Js.trim (Js.split "|" sysVersion) in
  (forall second, versionParts !! 1%nat = Some second ->
      Js.contains second "conda" ->
      getDisplayNameFromSysVersion (Some sysVersion) = second)
  /\ (forall second, versionParts !! 1%nat = Some second ->
      ~ Js.contains second "conda" ->
      getDisplayNameFromSysVersion (Some sysVersion) = AnacondaDisplayName)
  /\ (versionParts !! 1%nat = None ->
      getDisplayNameFromSysVersion (Some sysVersion) = AnacondaDisplayName).
Proof.
  intros versionParts. unfold getDisplayNameFromSysVersion.
  cbn [default from_option id]. fold versionParts.
  destruct (Js.nonEmpty sysVersion) eqn:Hne; simpl.
  - split; [| split].
    + intros second Hsecond Hconda. rewrite Hsecond.
      apply indexOf_contains in Hconda. rewrite Hconda.
      assert (1 < length versionParts)%nat as Hlen by (by eapply lookup_lt_Some).
      apply Nat.ltb_lt in Hlen. by rewrite Hlen.
    + intros second Hsecond Hconda. rewrite Hsecond.
      apply indexOf_not_contains in Hconda. rewrite Hconda.
      by rewrite andb_false_r.
    + intros Hnone. by rewrite Hnone.
  - apply nonEmpty_false in Hne. subst sysVersion.
    split; [| split]; [| done | done].
    intros second Hsecond. discriminate.
Qed.

(** C9, as amended. For every descriptor in which [conda_version], the
    truncated [pythonVersion] and [bitnesAndVersion] are all empty: when
    [sys.version] is a string, [getDisplayName] splits it on '|', trims
    the segments, and returns the second segment when there are at least
    two and the second contains "conda", and the fixed Conda display name
    otherwise; when [sys.version] is absent, it returns the trimmed
    company name. *)
Theorem getDisplayName_fallback `{RT : Runtime} (info : CondaInfo) :
  Js.orEmpty (conda_version info) = "" ->
  getDisplayVersion (python_version info) = "" ->
  bitnesAndVersion info = "" ->
  (forall sysVersion, sys_version info = Some sysVersion ->
      let versionParts := map Js.trim (Js.split "|" sysVersion) in
      (forall second, versionParts !! 1%nat = Some second ->
          Js.contains second "conda" -> getDisplayName info = second)
      /\ (forall second, versionParts !! 1%nat = Some second ->
          ~ Js.contains second "conda" ->
          getDisplayName info = AnacondaDisplayName)
      /\ (versionParts !! 1%nat = None ->
          getDisplayName info = AnacondaDisplayName))
  /\ (sys_version info = None ->
      getDisplayName info = Js.trim AnacondaCompanyName).
Proof.
  intros Hconda Hpython Hbitness.
  pose proof (getDisplayName_all_empty info Hconda Hpython Hbitness) as Hname.
  split.
  - intros sysVersion Hsys. rewrite Hsys in Hname. rewrite Hname.
    apply getDisplayNameFromSysVersion_parts.
  - intros Hsys. by rewrite Hsys in Hname.
Qed.

(** The example of the specification, on every platform. *)
Lemma getDisplayNameFromSysVersion_example `{RT : Runtime} :
  getDisplayNameFromSysVersion
    (Some "3.6.1 |Anaconda 4.4.0 (64-bit)| (default, ...)")
  = "Anaconda 4.4.0 (64-bit)".
Proof. reflexivity. Qed.

(** ** Sorting with a comparator *)

Section Sorting.

Context {A : Type} (cmp : A -> A -> Z).

Local Abbreviation le := (fun x y => (cmp x y <= 0)%Z).

Hypothesis cmp_total : forall x y, (cmp x y <= 0)%Z \/ (cmp y x <= 0)%Z.
Hypothesis cmp_trans :
  forall x y z, (cmp x y <= 0)%Z -> (cmp y z <= 0)%Z -> (cmp x z <= 0)%Z.

Lemma insertSorted_Permutation (x : A) (xs : list A) :
  insertSorted cmp x xs ≡ₚ x :: xs.
Proof.
  induction xs as [|y xs IH]; simpl; [done |].
  destruct (cmp x y <=? 0)%Z; [done |].
  rewrite IH. apply Permutation_swap.
Qed.

Lemma Array_sort_Permutation (xs : list A) : Array_sort cmp xs ≡ₚ xs.
Proof.
  induction xs as [|x xs IH]; simpl; [done |].
  by rewrite insertSorted_Permutation, IH.
Qed.

Lemma insertSorted_StronglySorted (x : A) (xs : list A) :
  StronglySorted le xs -> StronglySorted le (insertSorted cmp x xs).
Proof.
  induction 1 as [|y xs Hsorted IH Hall]; simpl.
  - by repeat constructor.
  - destruct (cmp x y <=? 0)%Z eqn:Hxy.
    + apply Z.leb_le in Hxy. constructor; [by constructor |].
      constructor; [done |].
      eapply Forall_impl; [exact Hall |]. intros z Hyz. by eapply cmp_trans.
    + apply Z.leb_gt in Hxy. constructor; [done |].
      rewrite insertSorted_Permutation. constructor; [| done].
      destruct (cmp_total x y); [lia | done].
Qed.

Lemma Array_sort_StronglySorted (xs : list A) :
  StronglySorted le (Array_sort cmp xs).
Proof.
  induction xs as [|x xs IH]; simpl; [constructor |].
  by apply insertSorted_StronglySorted.
Qed.

(** The last element of the sorted array is above every element of the
    array. *)
Lemma Array_sort_last_max (xs : list A) (m : A) :
  last (Array_sort cmp xs) = Some m ->
  m ∈ xs /\ forall y, y ∈ xs -> (cmp y m <= 0)%Z.
Proof.
  intros [l Hl]%last_Some.
  pose proof (Array_sort_StronglySorted xs) as Hsorted.
  pose proof (Array_sort_Permutation xs) as Hperm.
  rewrite Hl in Hsorted, Hperm. split.
  - rewrite <- Hperm. apply elem_of_app. right. by apply list_elem_of_singleton.
  - intros y Hy. rewrite <- Hperm in Hy.
    apply elem_of_app in Hy as [Hy | Hy%list_elem_of_singleton].
    + apply (StronglySorted_app_1_elem_of _ l [m] y m Hsorted Hy).
      by apply list_elem_of_singleton.
    + subst y. destruct (cmp_total m m); done.
Qed.

Lemma Array_sort_nil_iff (xs : list A) : Array_sort cmp xs = [] <-> xs = [].
Proof.
  split; [| by intros ->].
  intros Hnil. apply Permutation_nil_r. rewrite <- Hnil.
  by rewrite Array_sort_Permutation.
Qed.

End Sorting.

(** ** Versions *)

Lemma compareSegments_opp (a b : list N) :
  VersionUtils.compareSegments b a = CompOpp (VersionUtils.compareSegments a b).
Proof.
  revert b. induction a as [|x a IH]; intros [|y b]; simpl; try done.
  rewrite (N.compare_antisym x y).
  destruct (x ?= y)%N; simpl; [apply IH | done | done].
Qed.

Lemma compareSegments_trans (a b c : list N) :
  VersionUtils.compareSegments a b <> Gt ->
  VersionUtils.compareSegments b c <> Gt ->
  VersionUtils.compareSegments a c <> Gt.
Proof.
  revert b c. induction a as [|x a IH]; intros [|y b] [|z c]; simpl; try done.
  destruct (N.compare_spec x y), (N.compare_spec y z), (N.compare_spec x z);
    subst; try lia; try done.
  apply IH.
Qed.

Lemma compareVersion_le (a b : string) :
  (VersionUtils.compareVersion a b <= 0)%Z
  <-> VersionUtils.compareSegments (VersionUtils.segments a) (VersionUtils.segments b) <> Gt.
Proof.
  unfold VersionUtils.compareVersion.
  destruct (VersionUtils.compareSegments _ _); split; (done || lia).
Qed.

Lemma compareVersion_total (a b : string) :
  (VersionUtils.compareVersion a b <= 0)%Z \/ (VersionUtils.compareVersion b a <= 0)%Z.
Proof.
  rewrite !compareVersion_le.
  rewrite (compareSegments_opp (VersionUtils.segments a) (VersionUtils.segments b)).
  destruct (VersionUtils.compareSegments _ _); simpl; [by left | by left | by right].
Qed.

Lemma compareVersion_trans (a b c : string) :
  (VersionUtils.compareVersion a b <= 0)%Z ->
  (VersionUtils.compareVersion b c <= 0)%Z ->
  (VersionUtils.compareVersion a c <= 0)%Z.
Proof. rewrite !compareVersion_le. apply compareSegments_trans. Qed.

(** The numeric reading of the segments: 10 is above 8 although "1" is
    below "8". *)
Lemma compareVersion_numeric :
  VersionUtils.compareVersion "3.8.0" "3.10.0" = (-1)%Z
  /\ VersionUtils.compareVersion "3.9.9" "3.10.2" = (-1)%Z
  /\ VersionUtils.compareVersion "3.10.0" "3.8.0" = 1%Z.
Proof. by vm_compute. Qed.

(** ** The latest version *)

Lemma hasVersion_true (c : PythonInterpreter) :
  hasVersion c = true <-> exists v, version c = Some v /\ v <> "".
Proof.
  unfold hasVersion. destruct (version c) as [v|].
  - rewrite nonEmpty_true. split; [eauto |]. by intros [? [[= <-] ?]].
  - split; [done | by intros [? [? ?]]].
Qed.

Lemma hasVersion_false (c : PythonInterpreter) :
  hasVersion c = false <-> version c = None \/ version c = Some "".
Proof.
  unfold hasVersion. destruct (version c) as [v|].
  - rewrite nonEmpty_false. split; [intros ->; by right |].
    by intros [? | [= ->]].
  - split; [by left | done].
Qed.

Lemma getLatestVersion_last (interpreters : list PythonInterpreter) :
  getLatestVersion interpreters =
    last (Array_sort
            (fun a b => VersionUtils.compareVersion (versionOf a) (versionOf b))
            (List.filter hasVersion interpreters)).
Proof.
  unfold getLatestVersion. by destruct (Array_sort _ _).
Qed.

(** C6. [getLatestVersion] leaves out every interpreter whose version is
    absent or empty; the interpreter it returns is one of the others, and
    no other has a version above its version in the dotted-numeric
    comparison; it returns one whenever some interpreter has a non-empty
    version and nothing when none has; of "3.8.0" and "3.10.0" it returns
    "3.10.0", in whichever order they come. *)
Theorem getLatestVersion_spec (interpreters : list PythonInterpreter) :
  (forall latest, getLatestVersion interpreters = Some latest ->
      latest ∈ interpreters
      /\ (exists v, version latest = Some v /\ v <> "")
      /\ forall other v, other ∈ interpreters ->
           version other = Some v -> v <> "" ->
           (VersionUtils.compareVersion v (versionOf latest) <= 0)%Z)
  /\ ((exists c v, c ∈ interpreters /\ version c = Some v /\ v <> "") ->
      exists latest, getLatestVersion interpreters = Some latest)
  /\ ((forall c, c ∈ interpreters -> version c = None \/ version c = Some "") ->
      getLatestVersion interpreters = None)
  /\ (forall a b, version a = Some "3.8.0" -> version b = Some "3.10.0" ->
      getLatestVersion [a; b] = Some b /\ getLatestVersion [b; a] = Some b).
Proof.
  rewrite getLatestVersion_last.
  set (cmp := fun a b => VersionUtils.compareVersion (versionOf a) (versionOf b)).
  assert (forall x y, (cmp x y <= 0)%Z \/ (cmp y x <= 0)%Z) as Htotal
    by (intros; apply compareVersion_total).
  assert (forall x y z, (cmp x y <= 0)%Z -> (cmp y z <= 0)%Z -> (cmp x z <= 0)%Z)
    as Htrans by (intros x y z; apply compareVersion_trans).
  split; [| split; [| split]].
  - intros latest Hlast.
    destruct (Array_sort_last_max cmp Htotal Htrans _ _ Hlast) as [Hin Hmax].
    apply list_elem_of_In, filter_In in Hin as [Hin Hversion].
    split; [by apply list_elem_of_In |]. split; [by apply hasVersion_true |].
    intros other v Hother Hv Hne.
    assert (other ∈ List.filter hasVersion interpreters) as Hkept.
    { apply list_elem_of_In, filter_In. split; [by apply list_elem_of_In |].
      apply hasVersion_true. eauto. }
    specialize (Hmax other Hkept). unfold cmp, versionOf at 1 in Hmax.
    by rewrite Hv in Hmax.
  - intros (c & v & Hc & Hv & Hne).
    apply last_is_Some. rewrite Array_sort_nil_iff. intros Hnil.
    assert (c ∈ List.filter hasVersion interpreters) as Hkept.
    { apply list_elem_of_In, filter_In. split; [by apply list_elem_of_In |].
      apply hasVersion_true. eauto. }
    rewrite Hnil in Hkept. by apply not_elem_of_nil in Hkept.
  - intros Hnone.
    assert (List.filter hasVersion interpreters = []) as ->; [| done].
    induction interpreters as [|c cs IH]; simpl; [done |].
    assert (hasVersion c = false) as ->.
    { apply hasVersion_false, Hnone, elem_of_cons. by left. }
    apply IH. intros c' Hc'. apply Hnone, elem_of_cons. by right.
  - intros [pa na ca va] [pb nb cb vb] Ha Hb. simpl in Ha, Hb. subst va vb.
    by vm_compute.
Qed.

(** ** The conda executable *)

Lemma getCondaFile_resolved `{RT : Runtime} (interpreters : list PythonInterpreter) :
  getCondaFile (serviceWith (Resolved interpreters)) =
    let condaPath :=
      condaPathOf (getLatestVersion (List.filter isCondaEnvironment interpreters)) in
    Resolved (if pathExists condaPath then condaPath else "conda").
Proof. reflexivity. Qed.

(** A rejection of the secondary lookup service is passed on. *)
Lemma getCondaFile_rejected `{RT : Runtime} (e : Reason) :
  getCondaFile (serviceWith (Rejected e)) = Rejected e.
Proof. reflexivity. Qed.

Lemma filter_none {A} (p : A -> bool) (xs : list A) :
  (forall x, x ∈ xs -> p x = false) -> List.filter p xs = [].
Proof.
  induction xs as [|x xs IH]; intros Hnone; simpl; [done |].
  rewrite (Hnone x) by (apply elem_of_cons; by left).
  apply IH. intros y Hy. apply Hnone, elem_of_cons. by right.
Qed.

(** C4, as amended. [getCondaFile] resolves in every configuration in
    which no secondary lookup service is configured or the promise of the
    secondary lookup service resolves, whatever the list it resolves
    with. It resolves with the bare name 'conda' when there is no
    secondary service, when the service returns no Conda-flavored
    interpreter (or none that [getLatestVersion] selects), and when the
    sibling path derived from the selected interpreter does not exist. A
    rejection of the secondary service is not caught (lines 27-36 have no
    handler for it) and is passed on: see [getCondaFile_rejected]. *)
Theorem getCondaFile_never_raises `{RT : Runtime} :
  getCondaFile serviceAlone = Resolved "conda"
  /\ (forall interpreters,
        (forall i, i ∈ interpreters -> isCondaEnvironment i = false) ->
        getCondaFile (serviceWith (Resolved interpreters)) = Resolved "conda")
  /\ (forall interpreters,
        getLatestVersion (List.filter isCondaEnvironment interpreters) = None ->
        getCondaFile (serviceWith (Resolved interpreters)) = Resolved "conda")
  /\ (forall interpreters condaInterpreter,
        getLatestVersion (List.filter isCondaEnvironment interpreters)
          = Some condaInterpreter ->
        pathExists (path_join [path_dirname (path condaInterpreter); "conda.exe"])
          = false ->
        getCondaFile (serviceWith (Resolved interpreters)) = Resolved "conda")
  /\ (forall interpreters, exists condaFile,
        getCondaFile (serviceWith (Resolved interpreters)) = Resolved condaFile).
Proof.
  split; [reflexivity |].
  assert (forall interpreters,
             getLatestVersion (List.filter isCondaEnvironment interpreters) = None ->
             getCondaFile (serviceWith (Resolved interpreters)) = Resolved "conda")
    as Hnone.
  { intros interpreters Hlatest. rewrite getCondaFile_resolved, Hlatest. simpl.
    by destruct (pathExists "conda"). }
  split; [| split; [exact Hnone | split]].
  - intros interpreters Hno. apply Hnone. by rewrite filter_none.
  - intros interpreters condaInterpreter Hlatest Hmissing.
    rewrite getCondaFile_resolved, Hlatest. simpl. by rewrite Hmissing.
  - intros interpreters. rewrite getCondaFile_resolved. eauto.
Qed.

(** C5. When [getLatestVersion] selects a Conda-flavored interpreter from
    the list of the secondary lookup service, the candidate is
    'conda.exe' in the directory of that interpreter; [getCondaFile]
    resolves with the candidate when it exists on the file system, and
    with 'conda' when it does not. *)
Theorem getCondaFile_sibling `{RT : Runtime}
    (interpreters : list PythonInterpreter) (condaInterpreter : PythonInterpreter) :
  getLatestVersion (List.filter isCondaEnvironment interpreters)
    = Some condaInterpreter ->
  let condaPath := path_join [path_dirname (path condaInterpreter); "conda.exe"] in
  (pathExists condaPath = true ->
   getCondaFile (serviceWith (Resolved interpreters)) = Resolved condaPath)
  /\ (pathExists condaPath = false ->
      getCondaFile (serviceWith (Resolved interpreters)) = Resolved "conda").
Proof.
  intros Hlatest condaPath. rewrite getCondaFile_resolved, Hlatest. simpl.
  fold condaPath. split; intros ->; done.
Qed.

(** ** Parsing the descriptor *)

Lemma Promise_all_checkExists `{RT : Runtime} (xs : list PythonInterpreter) :
  Promise_all (map checkExists xs) =
    Resolved (map (fun env => if pathExists (path env) then Some env else None) xs).
Proof.
  induction xs as [|x xs IH]; simpl; [done |]. by rewrite IH.
Qed.

Lemma keep_existing `{RT : Runtime} (xs : list PythonInterpreter) :
  omap id (List.filter (fun interpreter => bool_decide (is_Some interpreter))
             (map (fun env => if pathExists (path env) then Some env else None) xs))
  = List.filter (fun env => pathExists (path env)) xs.
Proof.
  induction xs as [|x xs IH]; [done |].
  cbn [map List.filter]. destruct (pathExists (path x)).
  - rewrite bool_decide_eq_true_2 by eauto. cbn [List.filter].
    change (omap id (Some x :: ?l)) with (x :: omap id l). by rewrite IH.
  - rewrite bool_decide_eq_false_2 by (by intros [? ?]). exact IH.
Qed.

Lemma filter_map_comm {A B} (f : A -> B) (p : B -> bool) (xs : list A) :
  List.filter p (map f xs) = map f (List.filter (fun x => p (f x)) xs).
Proof.
  induction xs as [|x xs IH]; simpl; [done |].
  destruct (p (f x)); simpl; by rewrite IH.
Qed.

(** The records [parseCondaInfo] resolves with: those of the candidates
    whose interpreter exists, in the order of the candidates. *)
Lemma parseCondaInfo_resolved `{RT : Runtime} (info : CondaInfo) (h : heap) :
  parseCondaInfo info h =
    (Resolved
       (map (interpreterFor info (getDisplayName info))
          (List.filter
             (fun env => pathExists (path_join (env :: CONDA_RELATIVE_PY_PATH)))
             (elements (prepareEnvs info h).2 (prepareEnvs info h).1))),
     (prepareEnvs info h).2).
Proof.
  unfold parseCondaInfo. destruct (prepareEnvs info h) as [l h']. cbn [fst snd].
  rewrite Promise_all_checkExists. unfold thenMap, andThen.
  by rewrite keep_existing, filter_map_comm.
Qed.

Lemma elements_lookup (h : heap) (l : loc) (xs : list string) :
  h !! l = Some xs -> elements h l = xs.
Proof. unfold elements. by intros ->. Qed.

Lemma push_lookup (h : heap) (l : loc) (x : string) :
  push l x h !! l = Some (elements h l ++ [x]).
Proof. unfold push. by rewrite lookup_insert_eq. Qed.

Lemma alloc_fresh (xs : list string) (h : heap) :
  h !! (alloc xs h).1 = None /\ (alloc xs h).2 !! (alloc xs h).1 = Some xs.
Proof.
  unfold alloc. simpl. split.
  - apply not_elem_of_dom, is_fresh.
  - by rewrite lookup_insert_eq.
Qed.

(** Lines 57-60 on a descriptor whose [envs] is an array of the store:
    the array stays where it is and receives the prefix. *)
Lemma prepareEnvs_own `{RT : Runtime} (info : CondaInfo) (h : heap)
    (l : loc) (es : list string) :
  envs info = Some l -> h !! l = Some es ->
  (prepareEnvs info h).1 = l
  /\ (prepareEnvs info h).2 !! l = Some (es ++ prefixOf info).
Proof.
  intros Henvs Hl. unfold prepareEnvs, prefixOf. rewrite Henvs. simpl.
  rewrite bool_decide_eq_true_2 by (rewrite Hl; eauto).
  destruct (default_prefix info) as [prefix|]; simpl.
  - destruct (Js.nonEmpty prefix); simpl.
    + split; [done |]. by rewrite push_lookup, (elements_lookup _ _ _ Hl).
    + split; [done |]. by rewrite app_nil_r.
  - split; [done |]. by rewrite app_nil_r.
Qed.

(** Lines 57-60 on a descriptor whose [envs] is not an array: a new
    array receives the prefix. *)
Lemma prepareEnvs_new `{RT : Runtime} (info : CondaInfo) (h : heap) :
  isArray h (envs info) = false ->
  elements (prepareEnvs info h).2 (prepareEnvs info h).1 = prefixOf info.
Proof.
  intros Hno.
  assert (prepareEnvs info h =
            match default_prefix info with
            | Some prefix =>
                if Js.nonEmpty prefix
                then ((alloc [] h).1, push (alloc [] h).1 prefix (alloc [] h).2)
                else alloc [] h
            | None => alloc [] h
            end) as ->.
  { unfold prepareEnvs. destruct (envs info) as [l|].
    - rewrite Hno. destruct (alloc [] h).
      destruct (default_prefix info) as [prefix|]; [| done].
      by destruct (Js.nonEmpty prefix).
    - destruct (alloc [] h).
      destruct (default_prefix info) as [prefix|]; [| done].
      by destruct (Js.nonEmpty prefix). }
  destruct (alloc_fresh [] h) as [_ Hnew]. unfold prefixOf.
  destruct (default_prefix info) as [prefix|]; [| by apply elements_lookup].
  destruct (Js.nonEmpty prefix); [| by apply elements_lookup].
  apply elements_lookup. cbn [fst snd].
  by rewrite push_lookup, (elements_lookup _ _ _ Hnew).
Qed.

(** The array that lines 57-60 leave holds the entries of [envs]
    followed by the prefix. *)
Lemma prepareEnvs_elements `{RT : Runtime} (info : CondaInfo) (h : heap) :
  elements (prepareEnvs info h).2 (prepareEnvs info h).1
  = envsOf h info ++ prefixOf info.
Proof.
  destruct (envs info) as [l|] eqn:Henvs.
  - destruct (h !! l) as [es|] eqn:Hl.
    + destruct (prepareEnvs_own info h l es Henvs Hl) as [-> Hlookup].
      rewrite (elements_lookup _ _ _ Hlookup). unfold envsOf.
      by rewrite Henvs, (elements_lookup _ _ _ Hl).
    + assert (envsOf h info = []) as ->
        by (unfold envsOf, elements; by rewrite Henvs, Hl).
      apply prepareEnvs_new. rewrite Henvs. unfold isArray.
      apply bool_decide_eq_false_2. rewrite Hl. by intros [? ?].
  - assert (envsOf h info = []) as -> by (unfold envsOf; by rewrite Henvs).
    apply prepareEnvs_new. by rewrite Henvs.
Qed.

Lemma prefixOf_present (info : CondaInfo) (prefix : string) :
  default_prefix info = Some prefix -> prefix <> "" -> prefixOf info = [prefix].
Proof.
  intros Hprefix Hne. unfold prefixOf. rewrite Hprefix.
  apply nonEmpty_true in Hne. by rewrite Hne.
Qed.

Lemma prefixOf_absent (info : CondaInfo) :
  default_prefix info = None \/ default_prefix info = Some "" -> prefixOf info = [].
Proof. unfold prefixOf. by intros [-> | ->]. Qed.

(** C2. The candidate list that [parseCondaInfo] processes is every entry
    of [envs], in the order of the descriptor, followed by
    [default_prefix] when that is present and non-empty, also when it is
    already among the entries; the records returned are those of the
    candidates whose interpreter exists, in the order of the candidates. *)
Theorem parseCondaInfo_candidates `{RT : Runtime} (info : CondaInfo) (h : heap) :
  elements (prepareEnvs info h).2 (prepareEnvs info h).1
    = envsOf h info ++ prefixOf info
  /\ (parseCondaInfo info h).1 =
       Resolved
         (map (interpreterFor info (getDisplayName info))
            (List.filter
               (fun env => pathExists (path_join (env :: CONDA_RELATIVE_PY_PATH)))
               (envsOf h info ++ prefixOf info)))
  /\ (forall prefix, default_prefix info = Some prefix -> prefix <> "" ->
        prefixOf info = [prefix])
  /\ (default_prefix info = None \/ default_prefix info = Some "" ->
        prefixOf info = [])
  /\ (forall prefix, default_prefix info = Some prefix -> prefix <> "" ->
        prefix ∈ envsOf h info ->
        elements (prepareEnvs info h).2 (prepareEnvs info h).1
          = envsOf h info ++ [prefix]).
Proof.
  split; [apply prepareEnvs_elements |]. split.
  - by rewrite parseCondaInfo_resolved, prepareEnvs_elements.
  - split; [apply prefixOf_present |]. split; [apply prefixOf_absent |].
    intros prefix Hprefix Hne _.
    by rewrite prepareEnvs_elements, (prefixOf_present _ _ Hprefix Hne).
Qed.

(** C3. [parseCondaInfo] resolves, and every record it returns has a
    path for which the existence check returned true: no record carries
    the interpreter path of a candidate for which the check returned
    false, whatever the descriptor holds; the candidates for which it
    returned true all have their record in the result. *)
Theorem parseCondaInfo_existing `{RT : Runtime} (info : CondaInfo) (h : heap) :
  exists interpreters,
    (parseCondaInfo info h).1 = Resolved interpreters
    /\ (forall r, r ∈ interpreters -> pathExists (path r) = true)
    /\ (forall env,
          pathExists (path_join (env :: CONDA_RELATIVE_PY_PATH)) = false ->
          forall r, r ∈ interpreters ->
                    path r <> path_join (env :: CONDA_RELATIVE_PY_PATH))
    /\ (forall env,
          env ∈ elements (prepareEnvs info h).2 (prepareEnvs info h).1 ->
          pathExists (path_join (env :: CONDA_RELATIVE_PY_PATH)) = true ->
          interpreterFor info (getDisplayName info) env ∈ interpreters).
Proof.
  eexists. split; [by rewrite parseCondaInfo_resolved |].
  assert (forall r,
     r ∈ map (interpreterFor info (getDisplayName info))
           (List.filter
              (fun env => pathExists (path_join (env :: CONDA_RELATIVE_PY_PATH)))
              (elements (prepareEnvs info h).2 (prepareEnvs info h).1)) ->
     pathExists (path r) = true) as Hexists.
  { intros r [env [-> Henv]]%list_elem_of_fmap.
    by apply list_elem_of_In, filter_In in Henv as [_ Henv]. }
  split; [exact Hexists |]. split.
  - intros env Hmissing r Hr Hpath. apply Hexists in Hr. congruence.
  - intros env Henv Hthere. apply list_elem_of_fmap. exists env. split; [done |].
    apply list_elem_of_In, filter_In. split; [by apply list_elem_of_In | done].
Qed.

(** C7. The record built for a candidate environment root has the base
    display name of [getDisplayName] when the root equals the descriptor's
    [default_prefix], and otherwise the base display name followed by a
    space and the basename of the root in parentheses. Every record
    that [parseCondaInfo] returns is the record built for one of its
    candidates. *)
Theorem parseCondaInfo_displayName `{RT : Runtime} (info : CondaInfo) (h : heap) :
  (forall env,
      let r := interpreterFor info (getDisplayName info) env in
      path r = path_join (env :: CONDA_RELATIVE_PY_PATH)
      /\ (default_prefix info = Some env ->
          displayName r = Some (getDisplayName info))
      /\ (default_prefix info <> Some env ->
          displayName r =
            Some (getDisplayName info +:+ " (" +:+ path_basename env +:+ ")")))
  /\ exists interpreters,
      (parseCondaInfo info h).1 = Resolved interpreters
      /\ (forall r, r ∈ interpreters ->
            exists env,
              env ∈ envsOf h info ++ prefixOf info
              /\ r = interpreterFor info (getDisplayName info) env)
      /\ (forall env,
            env ∈ envsOf h info ++ prefixOf info ->
            pathExists (path_join (env :: CONDA_RELATIVE_PY_PATH)) = true ->
            interpreterFor info (getDisplayName info) env ∈ interpreters).
Proof.
  split.
  - intros env r. split; [done |]. unfold r, interpreterFor. simpl. split.
    + intros Hroot. by rewrite bool_decide_eq_true_2.
    + intros Hother. by rewrite bool_decide_eq_false_2.
  - eexists. split; [by rewrite parseCondaInfo_resolved, prepareEnvs_elements |].
    split.
    + intros r [env [-> Henv]]%list_elem_of_fmap. exists env. split; [| done].
      by apply list_elem_of_In, filter_In in Henv as [Henv%list_elem_of_In _].
    + intros env Henv Hthere. apply list_elem_of_fmap. exists env. split; [done |].
      apply list_elem_of_In, filter_In. split; [by apply list_elem_of_In | done].
Qed.

(** C10. On a descriptor whose [envs] is an array and whose
    [default_prefix] is non-empty, [parseCondaInfo] pushes the prefix onto
    the array that the descriptor refers to: after the call that array
    ends with the prefix, and a second call on the same descriptor takes
    the array with the prefix in it for its candidates and pushes the
    prefix once more. *)
Theorem parseCondaInfo_mutates_envs `{RT : Runtime} (info : CondaInfo) (h : heap)
    (l : loc) (es : list string) (prefix : string) :
  envs info = Some l -> h !! l = Some es ->
  default_prefix info = Some prefix -> prefix <> "" ->
  let h1 := (parseCondaInfo info h).2 in
  let h2 := (parseCondaInfo info h1).2 in
  (prepareEnvs info h).1 = l
  /\ h1 !! l = Some (es ++ [prefix])
  /\ (prepareEnvs info h1).1 = l
  /\ envsOf h1 info = es ++ [prefix]
  /\ elements (prepareEnvs info h1).2 (prepareEnvs info h1).1
       = es ++ [prefix; prefix]
  /\ h2 !! l = Some (es ++ [prefix; prefix])
  /\ (parseCondaInfo info h1).1 =
       Resolved
         (map (interpreterFor info (getDisplayName info))
            (List.filter
               (fun env => pathExists (path_join (env :: CONDA_RELATIVE_PY_PATH)))
               (es ++ [prefix; prefix]))).
Proof.
  intros Henvs Hl Hprefix Hne h1 h2.
  assert (prefixOf info = [prefix]) as Hpush by by apply prefixOf_present.
  destruct (prepareEnvs_own info h l es Henvs Hl) as [Hsame Hl1].
  rewrite Hpush in Hl1.
  assert (h1 !! l = Some (es ++ [prefix])) as Hh1
    by (unfold h1; by rewrite parseCondaInfo_resolved).
  destruct (prepareEnvs_own info h1 l _ Henvs Hh1) as [Hsame1 Hl2].
  rewrite Hpush, <- app_assoc in Hl2. simpl in Hl2.
  assert (envsOf h1 info = es ++ [prefix]) as Henvs1
    by (unfold envsOf; by rewrite Henvs, (elements_lookup _ _ _ Hh1)).
  assert (elements (prepareEnvs info h1).2 (prepareEnvs info h1).1
          = es ++ [prefix; prefix]) as Hcandidates
    by (by rewrite prepareEnvs_elements, Henvs1, Hpush, <- app_assoc).
  repeat split; try done.
  - unfold h2. by rewrite parseCondaInfo_resolved.
  - by rewrite parseCondaInfo_resolved, Hcandidates.
Qed.

(** ** Discovery *)

Lemma onExecFile_empty `{RT : Runtime} (h : heap) :
  onExecFile "" h = (Resolved [], h).
Proof. reflexivity. Qed.

Lemma onExecFile_syntax_error `{RT : Runtime} (stdout : string) (h : heap) :
  JSON_parse stdout = SyntaxError -> onExecFile stdout h = (Resolved [], h).
Proof.
  intros Hparse. unfold onExecFile. rewrite Hparse.
  by destruct (Nat.eqb _ _).
Qed.

Lemma onExecFile_object `{RT : Runtime} (stdout : string) (h : heap)
    (d : CondaInfoOf (list string)) :
  JSON_parse stdout = ParsedObject d ->
  exists interpreters, (onExecFile stdout h).1 = Resolved interpreters.
Proof.
  intros Hparse. unfold onExecFile. rewrite Hparse.
  destruct (Nat.eqb _ _); [by eexists |].
  destruct (allocInfo d h) as [info h']. unfold parseCondaInfoArg.
  rewrite parseCondaInfo_resolved. by eexists.
Qed.

Lemma onExecFile_null `{RT : Runtime} (stdout : string) (h : heap) :
  stdout <> "" -> JSON_parse stdout = ParsedNull ->
  onExecFile stdout h = (Rejected TypeError, h).
Proof.
  intros Hne Hparse. unfold onExecFile. rewrite Hparse.
  destruct stdout; [done | reflexivity].
Qed.

(** X19. Where discovery degrades as intended: on an empty standard output,
    on one that [JSON.parse] refuses, and on one that parses to a
    descriptor object, [getInterpreters] resolves; with the empty list in
    the first two cases. *)
Lemma getInterpreters_degrades `{RT : Runtime} (this : CondaEnvService)
    (h : heap) (condaFile : string) :
  getCondaFile this = Resolved condaFile ->
  let stdout := execFile condaFile ["info"; "--json"] in
  (stdout = "" -> CondaEnvService_getInterpreters this h = (Resolved [], h))
  /\ (JSON_parse stdout = SyntaxError ->
      CondaEnvService_getInterpreters this h = (Resolved [], h))
  /\ (forall d, JSON_parse stdout = ParsedObject d ->
      exists interpreters,
        (CondaEnvService_getInterpreters this h).1 = Resolved interpreters).
Proof.
  intros Hfile stdout.
  unfold CondaEnvService_getInterpreters, getSuggestionsFromConda.
  rewrite Hfile. fold stdout. split; [| split].
  - intros ->. apply onExecFile_empty.
  - apply onExecFile_syntax_error.
  - intros d. apply onExecFile_object.
Qed.

(** C1 fails on the standard output [null]. The text is not empty and
    [JSON.parse] accepts it, so the callback passes the value [null] to
    [parseCondaInfo]; that call returns a rejected promise, which the
    [try] around it does not see, and [getInterpreters] is rejected with
    the [TypeError] instead of resolving with a list. *)
Theorem getInterpreters_rejects_null `{RT : Runtime} (this : CondaEnvService)
    (h : heap) (condaFile : string) :
  getCondaFile this = Resolved condaFile ->
  execFile condaFile ["info"; "--json"] = "null" ->
  JSON_parse "null" = ParsedNull ->
  CondaEnvService_getInterpreters this h = (Rejected TypeError, h).
Proof.
  intros Hfile Hstdout Hparse.
  unfold CondaEnvService_getInterpreters, getSuggestionsFromConda.
  rewrite Hfile, Hstdout. by apply onExecFile_null.
Qed.

(** * The properties on the sample platform *)

(** A [conda] that prints [null]: discovery is rejected. *)
Lemma getInterpreters_rejects_null_witness :
  @CondaEnvService_getInterpreters (Sample.printing "null") serviceAlone ∅
  = (Rejected TypeError, ∅).
Proof.
  apply (@getInterpreters_rejects_null (Sample.printing "null") serviceAlone ∅ "conda");
    reflexivity.
Defined.

(** A [conda] that prints nothing, and one that prints no JSON. *)
Lemma getInterpreters_degrades_witness :
  @CondaEnvService_getInterpreters (Sample.printing "") serviceAlone ∅
    = (Resolved [], ∅)
  /\ @CondaEnvService_getInterpreters
       (Sample.printing "conda: command not found") serviceAlone ∅
     = (Resolved [], ∅).
Proof.
  split.
  - apply (proj1 (@getInterpreters_degrades (Sample.printing "") serviceAlone ∅
                    "conda" eq_refl)).
    reflexivity.
  - apply (proj1 (proj2 (@getInterpreters_degrades
                           (Sample.printing "conda: command not found")
                           serviceAlone ∅ "conda" eq_refl))).
    reflexivity.
Defined.

(** The candidates of [fooInfo] in [fooHeap], and the records returned:
    "/nope" has no interpreter and is dropped, the root comes last. *)
Lemma parseCondaInfo_candidates_witness :
  elements (@prepareEnvs Sample.fooInfo Sample.fooHeap).2
           (@prepareEnvs Sample.fooInfo Sample.fooHeap).1
    = ["/opt/conda/envs/foo"; "/nope"; "/opt/conda"]
  /\ path <$> match (@parseCondaInfo (Sample.printing "") Sample.fooInfo Sample.fooHeap).1 with
              | Resolved interpreters => interpreters
              | Rejected _ => []
              end
     = ["/opt/conda/envs/foo/bin/python"; "/opt/conda/bin/python"].
Proof.
  pose proof (@parseCondaInfo_candidates (Sample.printing "") Sample.fooInfo
                Sample.fooHeap) as [Hcandidates [Hrecords _]].
  split.
  - rewrite Hcandidates. by vm_compute.
  - rewrite Hrecords. by vm_compute.
Defined.

(** No record of [fooInfo] carries the path of the missing interpreter. *)
Lemma parseCondaInfo_existing_witness :
  exists interpreters,
    (@parseCondaInfo (Sample.printing "") Sample.fooInfo Sample.fooHeap).1
      = Resolved interpreters
    /\ forall r, r ∈ interpreters -> path r <> "/nope/bin/python".
Proof.
  destruct (@parseCondaInfo_existing (Sample.printing "") Sample.fooInfo
              Sample.fooHeap) as [interpreters [Hresolved [_ [Hmissing _]]]].
  exists interpreters. split; [exact Hresolved |].
  apply (Hmissing "/nope"). reflexivity.
Defined.

(** The record of the environment "foo" ends in "(foo)", that of the root
    has the base display name. *)
Lemma parseCondaInfo_displayName_witness :
  displayName
    (@interpreterFor (Sample.printing "") Sample.fooInfo
       (@getDisplayName (Sample.printing "") Sample.fooInfo) "/opt/conda/envs/foo")
    = Some "Continuum Analytics, Inc. 4.3.1 (64 bit, 3.6.1) (foo)"
  /\ displayName
       (@interpreterFor (Sample.printing "") Sample.fooInfo
          (@getDisplayName (Sample.printing "") Sample.fooInfo) "/opt/conda")
     = Some "Continuum Analytics, Inc. 4.3.1 (64 bit, 3.6.1)".
Proof.
  pose proof (@parseCondaInfo_displayName (Sample.printing "") Sample.fooInfo
                Sample.fooHeap) as [Hname _].
  split.
  - destruct (Hname "/opt/conda/envs/foo") as [_ [_ Hother]].
    rewrite Hother; [by vm_compute | discriminate].
  - destruct (Hname "/opt/conda") as [_ [Hroot _]].
    rewrite Hroot; [by vm_compute | reflexivity].
Defined.

(** Two calls on [fooInfo]: the array of the descriptor grows by the
    prefix each time. *)
Lemma parseCondaInfo_mutates_envs_witness :
  (@parseCondaInfo (Sample.printing "") Sample.fooInfo Sample.fooHeap).2 !! 0
    = Some ["/opt/conda/envs/foo"; "/nope"; "/opt/conda"]
  /\ (@parseCondaInfo (Sample.printing "") Sample.fooInfo
        (@parseCondaInfo (Sample.printing "") Sample.fooInfo Sample.fooHeap).2).2 !! 0
     = Some ["/opt/conda/envs/foo"; "/nope"; "/opt/conda"; "/opt/conda"].
Proof.
  pose proof (@parseCondaInfo_mutates_envs (Sample.printing "") Sample.fooInfo
                Sample.fooHeap 0 ["/opt/conda/envs/foo"; "/nope"] "/opt/conda"
                eq_refl eq_refl eq_refl ltac:(discriminate))
    as [_ [Hfirst [_ [_ [_ [Hsecond _]]]]]].
  split; [exact Hfirst | exact Hsecond].
Defined.

(** Without secondary service, with one that knows no Conda interpreter,
    and with one whose Conda interpreter has no [conda.exe] beside it. *)
Lemma getCondaFile_never_raises_witness :
  @getCondaFile (Sample.printing "") serviceAlone = Resolved "conda"
  /\ @getCondaFile (Sample.printing "") (serviceWith (Resolved [Sample.cpython]))
     = Resolved "conda"
  /\ @getCondaFile (Sample.printing "")
       (serviceWith (Resolved [Sample.olderAnaconda]))
     = Resolved "conda".
Proof.
  pose proof (@getCondaFile_never_raises (Sample.printing ""))
    as [Halone [Hnone [_ [Hmissing _]]]].
  split; [exact Halone |]. split.
  - apply Hnone. intros i ->%list_elem_of_singleton. reflexivity.
  - apply (Hmissing [Sample.olderAnaconda] Sample.olderAnaconda); reflexivity.
Defined.

(** C4 as it is stated fails on a secondary lookup service whose promise
    is rejected: [getCondaFile] does not resolve with 'conda', nor with
    anything else; it is rejected with the reason of the service. *)
Lemma getCondaFile_never_raises_counterexample :
  @getCondaFile (Sample.printing "")
    (serviceWith (Rejected (OtherReason "registry lookup failed")))
  = Rejected (OtherReason "registry lookup failed")
  /\ ~ (exists condaFile,
          @getCondaFile (Sample.printing "")
            (serviceWith (Rejected (OtherReason "registry lookup failed")))
          = Resolved condaFile).
Proof.
  split; [reflexivity |]. intros [condaFile Hresolved]. discriminate Hresolved.
Qed.

(** The [conda.exe] beside the latest Conda interpreter exists. *)
Lemma getCondaFile_sibling_witness :
  @getCondaFile (Sample.printing "")
    (serviceWith (Resolved [Sample.anaconda; Sample.cpython; Sample.olderAnaconda]))
  = Resolved "/opt/anaconda/conda.exe".
Proof.
  apply (proj1 (@getCondaFile_sibling (Sample.printing "")
                  [Sample.anaconda; Sample.cpython; Sample.olderAnaconda]
                  Sample.anaconda eq_refl)).
  reflexivity.
Defined.

(** The latest of three interpreters, one of them without version. *)
Lemma getLatestVersion_spec_witness :
  getLatestVersion
    [Sample.anaconda; Sample.unversioned; Sample.olderAnaconda] = Some Sample.anaconda
  /\ (VersionUtils.compareVersion "3.8.0" (versionOf Sample.anaconda) <= 0)%Z.
Proof.
  pose proof (getLatestVersion_spec
                [Sample.anaconda; Sample.unversioned; Sample.olderAnaconda])
    as [Hlatest _].
  split; [reflexivity |].
  destruct (Hlatest Sample.anaconda eq_refl) as [_ [_ Hmax]].
  apply (Hmax Sample.olderAnaconda "3.8.0"); [| reflexivity | discriminate].
  apply elem_of_cons. right. apply elem_of_cons. right. apply elem_of_cons. by left.
Defined.

(** A descriptor with nothing but [sys.version]: the second segment is
    the display name. A descriptor with nothing at all: the company name. *)
Lemma getDisplayName_fallback_witness :
  @getDisplayName (Sample.printing "") Sample.sysInfo = "Anaconda 4.4.0 (64-bit)"
  /\ @getDisplayName (Sample.printing "") Sample.noInfo = "Continuum Analytics, Inc.".
Proof.
  split.
  - destruct (@getDisplayName_fallback (Sample.printing "") Sample.sysInfo
                eq_refl eq_refl eq_refl) as [Hstring _].
    destruct (Hstring _ eq_refl) as [Hsecond _].
    apply Hsecond; [reflexivity |]. by exists "Ana", " 4.4.0 (64-bit)".
  - destruct (@getDisplayName_fallback (Sample.printing "") Sample.noInfo
                eq_refl eq_refl eq_refl) as [_ Habsent].
    apply Habsent. reflexivity.
Defined.

(** C9 as it is stated fails on the descriptor without any field: its
    three parts are empty and its [sys.version] is absent, the fallback
    on [sys.version] would give the fixed Conda display name, and
    [getDisplayName] returns the company name. *)
Lemma getDisplayName_fallback_counterexample :
  Js.orEmpty (conda_version (@Sample.noInfo loc)) = ""
  /\ getDisplayVersion (python_version (@Sample.noInfo loc)) = ""
  /\ bitnesAndVersion Sample.noInfo = ""
  /\ @getDisplayNameFromSysVersion (Sample.printing "")
       (sys_version (@Sample.noInfo loc))
     = @AnacondaDisplayName (Sample.printing "")
  /\ @getDisplayName (Sample.printing "") Sample.noInfo
     = "Continuum Analytics, Inc."
  /\ @getDisplayName (Sample.printing "") Sample.noInfo
     <> @AnacondaDisplayName (Sample.printing "").
Proof.
  repeat split; try reflexivity. discriminate.
Qed.

(** * Further properties *)

(** ** Splitting and joining *)

Lemma append_cons (x : ascii) (a b : string) :
  String x a +:+ b = String x (a +:+ b).
Proof. reflexivity. Qed.

Lemma append_nil (b : string) : "" +:+ b = b.
Proof. reflexivity. Qed.

Lemma append_assoc (a b c : string) : (a +:+ b) +:+ c = a +:+ b +:+ c.
Proof.
  induction a as [|x a IH]; [done |]. by rewrite !append_cons, IH.
Qed.

Lemma append_empty_r (s : string) : s +:+ "" = s.
Proof.
  induction s as [|x s IH]; [done |]. by rewrite append_cons, IH.
Qed.

Lemma join_cons_cons (sep p q : string) (ps : list string) :
  Js.join sep (p :: q :: ps) = p +:+ sep +:+ Js.join sep (q :: ps).
Proof. reflexivity. Qed.

Lemma join_String_head (sep : string) (c : ascii) (w : string) (ws : list string) :
  Js.join sep (String c w :: ws) = String c (Js.join sep (w :: ws)).
Proof. by destruct ws. Qed.

(** Joining the segments with the separator gives the string back. *)
Lemma join_split (sep : ascii) (s : string) :
  Js.join (String sep "") (Js.split sep s) = s.
Proof.
  induction s as [|c s IH]; simpl; [done |].
  pose proof (split_nonempty sep s) as Hne.
  destruct (Js.split sep s) as [|w ws]; [done |].
  destruct (Ascii.eqb c sep) eqn:Hc.
  - apply Ascii.eqb_eq in Hc as ->.
    by rewrite join_cons_cons, append_nil, append_cons, append_nil, IH.
  - by rewrite join_String_head, IH.
Qed.

(** No segment holds the separator. *)
Lemma occurs_split (sep : ascii) (s : string) :
  Forall (fun w => occurs sep w = false) (Js.split sep s).
Proof.
  induction s as [|c s IH]; simpl; [by repeat constructor |].
  destruct (Ascii.eqb c sep) eqn:Hc; [by constructor |].
  destruct (Js.split sep s) as [|w ws]; [by repeat constructor; simpl; rewrite Hc |].
  apply Forall_cons in IH as [Hw Hws].
  constructor; [| done]. simpl. by rewrite Hc.
Qed.

Lemma split_none (sep : ascii) (s : string) :
  occurs sep s = false -> Js.split sep s = [s].
Proof.
  induction s as [|c s IH]; simpl; [done |].
  intros [Hc Hs]%orb_false_iff. by rewrite Hc, (IH Hs).
Qed.

Lemma split_app (sep : ascii) (p rest : string) :
  occurs sep p = false ->
  Js.split sep (p +:+ String sep rest) = p :: Js.split sep rest.
Proof.
  induction p as [|c p IH]; simpl.
  - intros _. by rewrite Ascii.eqb_refl.
  - intros [Hc Hp]%orb_false_iff. by rewrite Hc, (IH Hp).
Qed.

(** Splitting what was joined gives the segments back, when no segment
    holds the separator. *)
Lemma split_join (sep : ascii) (segs : list string) :
  segs <> [] -> Forall (fun w => occurs sep w = false) segs ->
  Js.split sep (Js.join (String sep "") segs) = segs.
Proof.
  induction segs as [|p segs IH]; [done |]. intros _ Hall.
  apply Forall_cons in Hall as [Hp Hsegs].
  destruct segs as [|q segs]; [by apply split_none |].
  rewrite join_cons_cons. change (String sep "" +:+ ?r) with (String sep r).
  rewrite split_app by done. by rewrite IH.
Qed.

(** The join of the first segments starts the join of all of them. *)
Lemma join_take_prefix (sep : string) (n : nat) (l : list string) :
  exists post, Js.join sep l = Js.join sep (take n l) +:+ post.
Proof.
  revert n. induction l as [|p l IH]; intros n.
  - exists "". by rewrite take_nil.
  - destruct n as [|n]; [by exists (Js.join sep (p :: l)) |].
    destruct l as [|q l].
    { exists "". change (take (S n) [p]) with (p :: take n []).
      by rewrite take_nil, append_empty_r. }
    destruct (IH n) as [post Hpost]. rewrite join_cons_cons, Hpost.
    destruct n as [|n].
    + by exists (sep +:+ Js.join sep [] +:+ post).
    + exists post.
      change (take (S (S n)) (p :: q :: l)) with (p :: q :: take n l).
      change (take (S n) (q :: l)) with (q :: take n l).
      rewrite (join_cons_cons sep p q). by rewrite !append_assoc.
Qed.

Lemma occurs_contains (c : ascii) (s : string) :
  occurs c s = true <-> Js.contains s (String c "").
Proof.
  induction s as [|a s IH]; simpl.
  - split; [done |]. intros [[|? ?] [post Heq]]; discriminate.
  - rewrite orb_true_iff, Ascii.eqb_eq, IH. split.
    + intros [-> | [pre [post ->]]]; [by exists "", s |].
      by exists (String a pre), post.
    + intros [[|a' pre] [post Heq]]; simpl in Heq; injection Heq as -> ->.
      * by left.
      * right. by exists pre, post.
Qed.

(** ** The display version *)

Lemma take_split_nonempty (sep : ascii) (s : string) :
  take 3 (Js.split sep s) <> [].
Proof.
  pose proof (split_nonempty sep s). by destruct (Js.split sep s).
Qed.

(** X1. The version that [getDisplayVersion] returns starts the version
    it is given, and is that version itself when it has at most three
    dot-separated segments. *)
Theorem getDisplayVersion_prefix (value : string) :
  Js.startsWith (getDisplayVersion (Some value)) value = true
  /\ (length (Js.split "." value) <= 3 -> getDisplayVersion (Some value) = value).
Proof.
  rewrite getDisplayVersion_take. split.
  - apply startsWith_spec.
    destruct (join_take_prefix "." 3 (Js.split "." value)) as [post Hpost].
    exists post. by rewrite <- Hpost, join_split.
  - intros Hshort. by rewrite take_ge, join_split.
Qed.

(** X2. The version that [getDisplayVersion] returns has the first three
    segments of the version it is given and no other, so that applying
    [getDisplayVersion] again changes nothing. *)
Theorem getDisplayVersion_segments (value : string) :
  Js.split "." (getDisplayVersion (Some value)) = take 3 (Js.split "." value)
  /\ length (Js.split "." (getDisplayVersion (Some value))) <= 3
  /\ getDisplayVersion (Some (getDisplayVersion (Some value)))
     = getDisplayVersion (Some value).
Proof.
  assert (Js.split "." (getDisplayVersion (Some value))
          = take 3 (Js.split "." value)) as Hsegments.
  { rewrite getDisplayVersion_take. apply split_join.
    - apply take_split_nonempty.
    - apply Forall_take, occurs_split. }
  split; [done |]. split.
  - rewrite Hsegments, length_take. lia.
  - rewrite (getDisplayVersion_take (getDisplayVersion _)), Hsegments.
    rewrite take_take. by rewrite getDisplayVersion_take.
Qed.

(** [getDisplayVersion] returns the empty string on the empty version
    only. *)
Lemma getDisplayVersion_empty (value : option string) :
  getDisplayVersion value = "" <-> Js.orEmpty value = "".
Proof.
  destruct value as [value|]; [| done]. cbn [Js.orEmpty default from_option id].
  split; [| by intros ->].
  rewrite getDisplayVersion_take. intros Hempty.
  pose proof (join_split "." value) as Hjoin.
  destruct (Js.split "." value) as [|a [|b l]]; [done | |].
  - simpl in Hempty, Hjoin. congruence.
  - destruct l as [|c l];
      [change (take 3 [a; b]) with [a; b] in Hempty
      |change (take 3 (a :: b :: c :: l)) with [a; b; c] in Hempty];
      rewrite join_cons_cons in Hempty; destruct a; discriminate.
Qed.

(** ** When the display name comes from [sys.version] *)

Lemma getBitnessDisplayName_empty (value : option string) :
  getBitnessDisplayName value = "" <-> Js.orEmpty value = "".
Proof.
  destruct value as [value|]; [| done]. cbn [Js.orEmpty default from_option id].
  split; [| by intros ->].
  destruct (getBitnessDisplayName_cases value)
    as [[_ ->] | [[_ [_ ->]] | [_ [_ ->]]]]; done.
Qed.

Lemma join_two_empty (sep a b : string) :
  Js.join sep (List.filter Js.nonEmpty [a; b]) = "" <-> a = "" /\ b = "".
Proof.
  destruct a as [|x a], b as [|y b]; cbn [List.filter Js.nonEmpty String.length
    Nat.eqb negb]; rewrite ?join_String_head; split; try done; by intros [? ?].
Qed.

Lemma bitnesAndVersion_empty (info : CondaInfo) :
  bitnesAndVersion info = ""
  <-> Js.orEmpty (platform info) = "" /\ Js.orEmpty (python_version info) = "".
Proof.
  unfold bitnesAndVersion.
  by rewrite join_two_empty, getBitnessDisplayName_empty, getDisplayVersion_empty.
Qed.

(** The test of line 87 in terms of the fields of the descriptor. *)
Lemma all_empty_fields (info : CondaInfo) :
  negb (Js.nonEmpty (Js.orEmpty (conda_version info)))
  && negb (Js.nonEmpty (getDisplayVersion (python_version info)))
  && negb (Js.nonEmpty (bitnesAndVersion info)) = true
  <-> Js.orEmpty (conda_version info) = ""
      /\ Js.orEmpty (python_version info) = ""
      /\ Js.orEmpty (platform info) = "".
Proof.
  rewrite !andb_true_iff, !negb_true_iff, !nonEmpty_false.
  rewrite bitnesAndVersion_empty, getDisplayVersion_empty. tauto.
Qed.

(** X3. For a descriptor whose [sys.version] is a string, the display
    name is taken from [sys.version] exactly when [conda_version],
    [python_version] and [platform] are each absent or empty; as soon as
    one of them is not, the display name is the join of the company
    name, the conda version and the bitness and version. *)
Theorem getDisplayName_fallback_condition `{RT : Runtime} (info : CondaInfo)
    (sysVersion : string) :
  sys_version info = Some sysVersion ->
  (Js.orEmpty (conda_version info) = ""
   /\ Js.orEmpty (python_version info) = ""
   /\ Js.orEmpty (platform info) = "" ->
   getDisplayName info = getDisplayNameFromSysVersion (Some sysVersion))
  /\ (Js.orEmpty (conda_version info) <> ""
      \/ Js.orEmpty (python_version info) <> ""
      \/ Js.orEmpty (platform info) <> "" ->
      getDisplayName info =
        joinedDisplayName (Js.orEmpty (conda_version info)) (bitnesAndVersion info)).
Proof.
  intros Hsys. unfold getDisplayName. rewrite Hsys.
  destruct (negb _ && negb _ && negb _) eqn:Htest.
  - apply all_empty_fields in Htest. split; [done |]. intros Hsome. tauto.
  - split; [| done]. intros Hall. apply all_empty_fields in Hall. congruence.
Qed.

(** X4. When one of [conda_version], [python_version] and [platform] is
    a non-empty string, the display name does not depend on
    [sys.version]: whatever takes its place, [getDisplayName] returns the
    same name. *)
Theorem getDisplayName_ignores_sys_version `{RT : Runtime} (info : CondaInfo)
    (sysVersion : option string) :
  Js.orEmpty (conda_version info) <> ""
  \/ Js.orEmpty (python_version info) <> ""
  \/ Js.orEmpty (platform info) <> "" ->
  getDisplayName (withSysVersion sysVersion info) = getDisplayName info.
Proof.
  intros Hsome.
  assert (forall i : CondaInfo,
             conda_version i = conda_version info ->
             python_version i = python_version info ->
             platform i = platform info ->
             getDisplayName i =
               joinedDisplayName (Js.orEmpty (conda_version info))
                 (bitnesAndVersion info)) as Hjoined.
  { intros i Hc Hp Hplat. unfold getDisplayName.
    assert (bitnesAndVersion i = bitnesAndVersion info) as ->
      by (unfold bitnesAndVersion; by rewrite Hp, Hplat).
    rewrite Hc, Hp.
    destruct (negb _ && negb _ && negb _) eqn:Htest; [| done].
    apply all_empty_fields in Htest. tauto. }
  by rewrite (Hjoined (withSysVersion sysVersion info)), (Hjoined info).
Qed.

(** ** Names read from [sys.version] *)

Lemma split_second_bar (s : string) (second : string) :
  Js.split "|" s !! 1%nat = Some second -> occurs "|" s = true.
Proof.
  intros Hsecond. destruct (occurs "|" s) eqn:Hno; [done |].
  by rewrite (split_none _ _ Hno) in Hsecond.
Qed.

(** X5. [getDisplayNameFromSysVersion] returns the fixed Conda display
    name or a text in which "conda" occurs, and nothing else: a segment
    of [sys.version] that does not mention conda is never shown. *)
Theorem getDisplayNameFromSysVersion_mentions_conda `{RT : Runtime}
    (versionInfo : option string) :
  getDisplayNameFromSysVersion versionInfo = AnacondaDisplayName
  \/ Js.contains (getDisplayNameFromSysVersion versionInfo) "conda".
Proof.
  destruct versionInfo as [sysVersion|]; [| by left].
  destruct (getDisplayNameFromSysVersion_parts sysVersion)
    as [Hconda [Hother Hnone]].
  destruct (map Js.trim (Js.split "|" sysVersion) !! 1%nat) as [second|] eqn:H1.
  - destruct (0 <=? Js.indexOf "conda" second)%Z eqn:Hindex.
    + apply indexOf_contains in Hindex. right. by rewrite (Hconda second).
    + apply indexOf_not_contains in Hindex. left. by apply (Hother second).
  - left. by apply Hnone.
Qed.

(** X6. On a [sys.version] without any '|', [getDisplayNameFromSysVersion]
    returns the fixed Conda display name. *)
Theorem getDisplayNameFromSysVersion_no_bar `{RT : Runtime} (sysVersion : string) :
  ~ Js.contains sysVersion "|" ->
  getDisplayNameFromSysVersion (Some sysVersion) = AnacondaDisplayName.
Proof.
  intros Hno.
  destruct (getDisplayNameFromSysVersion_parts sysVersion) as [_ [_ Hnone]].
  apply Hnone.
  destruct (map Js.trim (Js.split "|" sysVersion) !! 1%nat) as [second|] eqn:H1;
    [| done].
  rewrite list_lookup_fmap in H1.
  destruct (Js.split "|" sysVersion !! 1%nat) as [raw|] eqn:Hraw; [| done].
  apply split_second_bar, occurs_contains in Hraw. done.
Qed.

(** ** The records of a descriptor *)

Lemma parseCondaInfo_records `{RT : Runtime} (info : CondaInfo) (h : heap) :
  (parseCondaInfo info h).1 = Resolved (recordsOf info (envsOf h info ++ prefixOf info)).
Proof. by rewrite parseCondaInfo_resolved, prepareEnvs_elements. Qed.

Lemma parseCondaInfo_store `{RT : Runtime} (info : CondaInfo) (h : heap) :
  (parseCondaInfo info h).2 = (prepareEnvs info h).2.
Proof. by rewrite parseCondaInfo_resolved. Qed.

Lemma recordsOf_app `{RT : Runtime} (info : CondaInfo) (xs ys : list string) :
  recordsOf info (xs ++ ys) = recordsOf info xs ++ recordsOf info ys.
Proof. unfold recordsOf. by rewrite List.filter_app, List.map_app. Qed.

Lemma recordsOf_elem `{RT : Runtime} (info : CondaInfo) (xs : list string)
    (r : PythonInterpreter) :
  r ∈ recordsOf info xs ->
  exists env, env ∈ xs /\ r = interpreterFor info (getDisplayName info) env.
Proof.
  intros [env [-> Henv]]%list_elem_of_fmap. exists env. split; [| done].
  by apply list_elem_of_In, filter_In in Henv as [Henv%list_elem_of_In _].
Qed.

Lemma getLatestVersion_none (interpreters : list PythonInterpreter) :
  (forall c, c ∈ interpreters -> hasVersion c = false) ->
  getLatestVersion interpreters = None.
Proof.
  intros Hnone. unfold getLatestVersion. by rewrite filter_none.
Qed.

(** X7. Every record that [parseCondaInfo] returns carries the company
    name, a display name that starts with the base display name of the
    descriptor, and no version; [getLatestVersion] therefore selects none
    of the records of a descriptor. *)
Theorem parseCondaInfo_record_shape `{RT : Runtime} (info : CondaInfo) (h : heap) :
  exists interpreters,
    (parseCondaInfo info h).1 = Resolved interpreters
    /\ (forall r, r ∈ interpreters ->
          companyDisplayName r = Some AnacondaCompanyName
          /\ version r = None
          /\ exists name, displayName r = Some name
                          /\ Js.startsWith (getDisplayName info) name = true)
    /\ getLatestVersion interpreters = None.
Proof.
  eexists. split; [apply parseCondaInfo_records |]. split.
  - intros r [env [_ ->]]%recordsOf_elem. split; [done |]. split; [done |].
    unfold interpreterFor. cbn [displayName]. eexists. split; [done |].
    apply startsWith_spec. destruct (bool_decide _).
    + exists "". by rewrite append_empty_r.
    + by eexists.
  - apply getLatestVersion_none. by intros r [env [_ ->]]%recordsOf_elem.
Qed.

(** ** What [parseCondaInfo] does to the store *)

Lemma alloc_other (xs ys : list string) (h : heap) (l : loc) :
  h !! l = Some ys -> (alloc xs h).1 <> l /\ (alloc xs h).2 !! l = Some ys.
Proof.
  intros Hl. destruct (alloc_fresh xs h) as [Hfresh _].
  assert ((alloc xs h).1 <> l) as Hne by (intros Heq; congruence).
  split; [done |]. unfold alloc in *. cbn [fst snd] in *.
  by rewrite lookup_insert_ne.
Qed.

Lemma prepareEnvs_frame `{RT : Runtime} (info : CondaInfo) (h : heap)
    (l : loc) (xs : list string) :
  h !! l = Some xs -> envs info <> Some l ->
  (prepareEnvs info h).2 !! l = Some xs.
Proof.
  intros Hl Hother.
  assert (forall l0 h0, l0 <> l -> h0 !! l = Some xs ->
            (match default_prefix info with
             | Some prefix =>
                 if Js.nonEmpty prefix then (l0, push l0 prefix h0) else (l0, h0)
             | None => (l0, h0)
             end).2 !! l = Some xs) as Hpush.
  { intros l0 h0 Hne Hl0. destruct (default_prefix info) as [prefix|]; [| done].
    destruct (Js.nonEmpty prefix); [| done].
    unfold push. cbn [snd]. by rewrite lookup_insert_ne. }
  destruct (alloc_other [] xs h l Hl) as [Hnew Hkept].
  unfold prepareEnvs. destruct (envs info) as [l0|].
  - destruct (isArray h (Some l0)).
    + apply Hpush; [congruence | done].
    + destruct (alloc [] h) as [l' h']. by apply Hpush.
  - destruct (alloc [] h) as [l' h']. by apply Hpush.
Qed.

(** X8. [parseCondaInfo] leaves every array of the store as it is, except
    the one its descriptor refers to as [envs]. *)
Theorem parseCondaInfo_frame `{RT : Runtime} (info : CondaInfo) (h : heap)
    (l : loc) (xs : list string) :
  h !! l = Some xs -> envs info <> Some l ->
  (parseCondaInfo info h).2 !! l = Some xs.
Proof.
  intros Hl Hother. rewrite parseCondaInfo_store. by apply prepareEnvs_frame.
Qed.

(** X9. A descriptor with no entry in [envs] and no non-empty
    [default_prefix] gives the empty list. *)
Theorem parseCondaInfo_nothing `{RT : Runtime} (info : CondaInfo) (h : heap) :
  envsOf h info = [] ->
  default_prefix info = None \/ default_prefix info = Some "" ->
  (parseCondaInfo info h).1 = Resolved [].
Proof.
  intros Henvs Hprefix.
  by rewrite parseCondaInfo_records, Henvs, (prefixOf_absent _ Hprefix).
Qed.

(** X10. On a descriptor whose [envs] is an array and whose
    [default_prefix] is non-empty, a second call of [parseCondaInfo]
    returns the records of the first call followed by one more record of
    the root environment, when the interpreter of the root exists, and
    the same records when it does not. *)
Theorem parseCondaInfo_twice `{RT : Runtime} (info : CondaInfo) (h : heap)
    (l : loc) (es : list string) (prefix : string) :
  envs info = Some l -> h !! l = Some es ->
  default_prefix info = Some prefix -> prefix <> "" ->
  exists interpreters,
    (parseCondaInfo info h).1 = Resolved interpreters
    /\ (parseCondaInfo info (parseCondaInfo info h).2).1 =
         Resolved
           (interpreters ++
              if pathExists (path_join (prefix :: CONDA_RELATIVE_PY_PATH))
              then [interpreterFor info (getDisplayName info) prefix]
              else []).
Proof.
  intros Henvs Hl Hprefix Hne.
  pose proof (prefixOf_present _ _ Hprefix Hne) as Hpush.
  destruct (prepareEnvs_own info h l es Henvs Hl) as [_ Hl1].
  rewrite <- parseCondaInfo_store, Hpush in Hl1.
  eexists. split; [apply parseCondaInfo_records |].
  rewrite parseCondaInfo_records, Hpush.
  assert (envsOf (parseCondaInfo info h).2 info = envsOf h info ++ [prefix]) as ->.
  { unfold envsOf. rewrite Henvs.
    by rewrite (elements_lookup _ _ _ Hl1), (elements_lookup _ _ _ Hl). }
  rewrite recordsOf_app. f_equal.
  unfold recordsOf. cbn [List.filter]. by destruct (pathExists _).
Qed.

Lemma prepareEnvs_no_prefix `{RT : Runtime} (info : CondaInfo) (h : heap) :
  prefixOf info = [] -> isArray h (envs info) = false ->
  prepareEnvs info h = alloc [] h.
Proof.
  intros Hprefix Hno. unfold prepareEnvs, prefixOf in *.
  assert ((let '(envs, h0) := alloc [] h in
           match default_prefix info with
           | Some prefix =>
               if Js.nonEmpty prefix then (envs, push envs prefix h0) else (envs, h0)
           | None => (envs, h0)
           end) = alloc [] h) as Halloc.
  { destruct (alloc [] h) as [l' h'].
    destruct (default_prefix info) as [prefix|]; [| done].
    by destruct (Js.nonEmpty prefix). }
  destruct (envs info) as [l|]; [| exact Halloc].
  rewrite Hno. exact Halloc.
Qed.

Lemma envsOf_after `{RT : Runtime} (info : CondaInfo) (h : heap) :
  envs info = None \/ prefixOf info = [] ->
  envsOf (prepareEnvs info h).2 info = envsOf h info.
Proof.
  intros Hcase. unfold envsOf.
  destruct (envs info) as [l|] eqn:Henvs; [| done].
  destruct Hcase as [? | Hprefix]; [done |].
  destruct (h !! l) as [es|] eqn:Hl.
  - destruct (prepareEnvs_own info h l es Henvs Hl) as [_ Hl1].
    rewrite Hprefix, app_nil_r in Hl1.
    by rewrite (elements_lookup _ _ _ Hl1), (elements_lookup _ _ _ Hl).
  - rewrite prepareEnvs_no_prefix; [| done |].
    + unfold alloc, elements. cbn [snd]. rewrite Hl.
      destruct (decide (fresh (dom h) = l)) as [-> | Hne].
      * by rewrite lookup_insert_eq.
      * by rewrite lookup_insert_ne, Hl.
    + rewrite Henvs. unfold isArray. apply bool_decide_eq_false_2.
      rewrite Hl. by intros [? ?].
Qed.

(** X11. On a descriptor without [envs], or without a non-empty
    [default_prefix], a second call of [parseCondaInfo] returns the
    records of the first call. *)
Theorem parseCondaInfo_again `{RT : Runtime} (info : CondaInfo) (h : heap) :
  envs info = None
  \/ default_prefix info = None \/ default_prefix info = Some "" ->
  (parseCondaInfo info (parseCondaInfo info h).2).1 = (parseCondaInfo info h).1.
Proof.
  intros Hcase. rewrite !parseCondaInfo_records, parseCondaInfo_store.
  rewrite envsOf_after; [done |].
  destruct Hcase as [? | Hprefix]; [by left | right]. by apply prefixOf_absent.
Qed.

(** ** Where the conda executable comes from *)

Lemma getLatestVersion_elem (interpreters : list PythonInterpreter)
    (latest : PythonInterpreter) :
  getLatestVersion interpreters = Some latest ->
  latest ∈ interpreters /\ hasVersion latest = true.
Proof.
  rewrite getLatestVersion_last. intros [l Hl]%last_Some.
  assert (latest ∈ List.filter hasVersion interpreters) as Hin.
  { rewrite <- (Array_sort_Permutation
                  (fun a b => VersionUtils.compareVersion (versionOf a) (versionOf b))),
      Hl.
    apply elem_of_app. right. by apply list_elem_of_singleton. }
  apply list_elem_of_In, filter_In in Hin as [Hin Hversion].
  split; [by apply list_elem_of_In | done].
Qed.

(** X12. Whatever [getCondaFile] resolves with, other than the bare name
    'conda', is a path that exists, and it is the 'conda.exe' beside an
    interpreter that the secondary lookup service listed, that
    [isCondaEnvironment] accepts and that has a non-empty version. *)
Theorem getCondaFile_provenance `{RT : Runtime}
    (interpreters : list PythonInterpreter) (condaFile : string) :
  getCondaFile (serviceWith (Resolved interpreters)) = Resolved condaFile ->
  condaFile = "conda"
  \/ (pathExists condaFile = true
      /\ exists i, i ∈ interpreters
                   /\ isCondaEnvironment i = true
                   /\ hasVersion i = true
                   /\ condaFile = path_join [path_dirname (path i); "conda.exe"]).
Proof.
  rewrite getCondaFile_resolved. cbv zeta.
  destruct (getLatestVersion _) as [latest|] eqn:Hlatest; cbn [condaPathOf].
  - destruct (pathExists _) eqn:Hexists; intros [= <-]; [right | by left].
    split; [done |]. exists latest.
    apply getLatestVersion_elem in Hlatest as [Hin Hversion].
    apply list_elem_of_In, filter_In in Hin as [Hin Hconda].
    by apply list_elem_of_In in Hin.
  - destruct (pathExists _); intros [= <-]; by left.
Qed.

(** X13. When the promise of the secondary lookup service is rejected,
    [getCondaFile] and [getInterpreters] are rejected with the same
    reason, and the store is left as it was. *)
Theorem getInterpreters_lookup_rejected `{RT : Runtime} (e : Reason) (h : heap) :
  getCondaFile (serviceWith (Rejected e)) = Rejected e
  /\ CondaEnvService_getInterpreters (serviceWith (Rejected e)) h = (Rejected e, h).
Proof. split; reflexivity. Qed.

(** ** Discovery from the text of the descriptor *)

Lemma recordsOf_ext `{RT : Runtime} (info info' : CondaInfo) (xs : list string) :
  sys_version info = sys_version info' ->
  default_prefix info = default_prefix info' ->
  conda_version info = conda_version info' ->
  python_version info = python_version info' ->
  platform info = platform info' ->
  recordsOf info xs = recordsOf info' xs.
Proof.
  destruct info, info'. cbn [sys_version default_prefix conda_version
    python_version platform]. by intros -> -> -> -> ->.
Qed.

Lemma allocInfo_spec (d : CondaInfoOf (list string)) (h : heap) :
  envsOf (allocInfo d h).2 (allocInfo d h).1 = default [] (envs d)
  /\ sys_version (allocInfo d h).1 = sys_version d
  /\ default_prefix (allocInfo d h).1 = default_prefix d
  /\ conda_version (allocInfo d h).1 = conda_version d
  /\ python_version (allocInfo d h).1 = python_version d
  /\ platform (allocInfo d h).1 = platform d.
Proof.
  unfold allocInfo. destruct (envs d) as [xs|].
  - destruct (alloc_fresh xs h) as [_ Hnew].
    destruct (alloc xs h) as [l h']. cbn [fst snd] in *.
    split; [| done]. unfold envsOf. cbn [envs]. by apply elements_lookup.
  - done.
Qed.

Lemma allocInfo_frame (d : CondaInfoOf (list string)) (h : heap)
    (l : loc) (xs : list string) :
  h !! l = Some xs ->
  (allocInfo d h).2 !! l = Some xs /\ envs (allocInfo d h).1 <> Some l.
Proof.
  intros Hl. unfold allocInfo. destruct (envs d) as [ys|]; [| done].
  destruct (alloc_other ys xs h l Hl) as [Hne Hkept].
  destruct (alloc ys h) as [l' h']. cbn [fst snd envs] in *.
  split; [done | congruence].
Qed.

Lemma onExecFile_records `{RT : Runtime} (stdout : string) (h : heap)
    (d : CondaInfoOf (list string)) :
  stdout <> "" -> JSON_parse stdout = ParsedObject d ->
  (onExecFile stdout h).1 =
    Resolved (recordsOf (scalarsOf d)
                (default [] (envs d) ++ prefixOf (scalarsOf d))).
Proof.
  intros Hne Hparse. unfold onExecFile. rewrite Hparse.
  destruct stdout as [|c stdout]; [done |]. cbn [String.length Nat.eqb].
  destruct (allocInfo_spec d h) as (Henvs & Hsys & Hprefix & Hconda & Hpython & Hplat).
  destruct (allocInfo d h) as [info h']. cbn [fst snd] in *.
  unfold parseCondaInfoArg. rewrite parseCondaInfo_records, Henvs.
  assert (prefixOf info = prefixOf (scalarsOf d)) as ->
    by (unfold prefixOf; by rewrite Hprefix).
  f_equal. by apply recordsOf_ext.
Qed.

(** X14. When the standard output of [conda] parses to a descriptor
    object, [getInterpreters] resolves with the records of the entries
    of [envs] followed by that of the non-empty [default_prefix], those
    whose interpreter exists, in that order. *)
Theorem getInterpreters_records `{RT : Runtime} (this : CondaEnvService)
    (h : heap) (condaFile : string) (d : CondaInfoOf (list string)) :
  getCondaFile this = Resolved condaFile ->
  execFile condaFile ["info"; "--json"] <> "" ->
  JSON_parse (execFile condaFile ["info"; "--json"]) = ParsedObject d ->
  (CondaEnvService_getInterpreters this h).1 =
    Resolved (recordsOf (scalarsOf d)
                (default [] (envs d) ++ prefixOf (scalarsOf d))).
Proof.
  intros Hfile Hne Hparse.
  unfold CondaEnvService_getInterpreters, getSuggestionsFromConda.
  rewrite Hfile. by apply onExecFile_records.
Qed.

Lemma onExecFile_any_store `{RT : Runtime} (stdout : string) (h h' : heap) :
  (onExecFile stdout h).1 = (onExecFile stdout h').1.
Proof.
  destruct (decide (stdout = "")) as [-> | Hne]; [done |].
  destruct (JSON_parse stdout) as [| |d] eqn:Hparse.
  - by rewrite !onExecFile_syntax_error.
  - by rewrite !onExecFile_null.
  - by rewrite !(onExecFile_records stdout _ d).
Qed.

(** X15. What [getInterpreters] settles with does not depend on the
    store it starts from: each call parses the output anew, so that
    calling it again, on the store the first call left, settles with the
    same list. *)
Theorem getInterpreters_repeatable `{RT : Runtime} (this : CondaEnvService)
    (h h' : heap) :
  (CondaEnvService_getInterpreters this h).1
    = (CondaEnvService_getInterpreters this h').1
  /\ (CondaEnvService_getInterpreters this
        (CondaEnvService_getInterpreters this h).2).1
     = (CondaEnvService_getInterpreters this h).1.
Proof.
  assert (forall h1 h2,
             (CondaEnvService_getInterpreters this h1).1
             = (CondaEnvService_getInterpreters this h2).1) as Hany.
  { intros h1 h2. unfold CondaEnvService_getInterpreters, getSuggestionsFromConda.
    destruct (getCondaFile this); [apply onExecFile_any_store | done]. }
  split; apply Hany.
Qed.

Lemma onExecFile_frame `{RT : Runtime} (stdout : string) (h : heap)
    (l : loc) (xs : list string) :
  h !! l = Some xs -> (onExecFile stdout h).2 !! l = Some xs.
Proof.
  intros Hl. unfold onExecFile. destruct (Nat.eqb _ _); [done |].
  destruct (JSON_parse stdout) as [| |d]; [done | done |].
  destruct (allocInfo_frame d h l xs Hl) as [Hkept Hother].
  destruct (allocInfo d h) as [info h1]. cbn [fst snd] in *.
  unfold parseCondaInfoArg. rewrite parseCondaInfo_store.
  by apply prepareEnvs_frame.
Qed.

(** X16. [getInterpreters] leaves every array of the store it starts
    from as it is: what it pushes, it pushes onto the array of the
    descriptor it has just parsed. *)
Theorem getInterpreters_frame `{RT : Runtime} (this : CondaEnvService)
    (h : heap) (l : loc) (xs : list string) :
  h !! l = Some xs ->
  (CondaEnvService_getInterpreters this h).2 !! l = Some xs.
Proof.
  intros Hl. unfold CondaEnvService_getInterpreters, getSuggestionsFromConda.
  destruct (getCondaFile this); [by apply onExecFile_frame | done].
Qed.

(** ** The latest version and the order of the list *)

Lemma compareVersion_both (a b : string) :
  (VersionUtils.compareVersion a b <= 0)%Z ->
  (VersionUtils.compareVersion b a <= 0)%Z ->
  VersionUtils.compareVersion a b = 0%Z.
Proof.
  rewrite !compareVersion_le.
  rewrite (compareSegments_opp (VersionUtils.segments a) (VersionUtils.segments b)).
  unfold VersionUtils.compareVersion.
  by destruct (VersionUtils.compareSegments _ _).
Qed.

Lemma getLatestVersion_max (interpreters : list PythonInterpreter)
    (latest other : PythonInterpreter) :
  getLatestVersion interpreters = Some latest ->
  other ∈ interpreters -> hasVersion other = true ->
  (VersionUtils.compareVersion (versionOf other) (versionOf latest) <= 0)%Z.
Proof.
  rewrite getLatestVersion_last. intros Hlast Hother Hversion.
  eapply (Array_sort_last_max
            (fun a b => VersionUtils.compareVersion (versionOf a) (versionOf b)));
    [| | exact Hlast |].
  - intros x y. apply compareVersion_total.
  - intros x y z. apply compareVersion_trans.
  - apply list_elem_of_In, filter_In. split; [by apply list_elem_of_In | done].
Qed.

Lemma getLatestVersion_some (interpreters : list PythonInterpreter)
    (c : PythonInterpreter) :
  c ∈ interpreters -> hasVersion c = true ->
  exists latest, getLatestVersion interpreters = Some latest.
Proof.
  intros Hc Hversion. rewrite getLatestVersion_last.
  apply last_is_Some. rewrite Array_sort_nil_iff. intros Hnil.
  assert (c ∈ List.filter hasVersion interpreters) as Hkept
    by (apply list_elem_of_In, filter_In; split; [by apply list_elem_of_In | done]).
  rewrite Hnil in Hkept. by apply not_elem_of_nil in Hkept.
Qed.

(** X17. The version that [getLatestVersion] selects depends on which
    interpreters are listed and not on their order or their number of
    occurrences: on two lists with the same elements it selects nothing
    from either, or interpreters whose versions compare equal. *)
Theorem getLatestVersion_order (xs ys : list PythonInterpreter) :
  (forall i, i ∈ xs <-> i ∈ ys) ->
  match getLatestVersion xs, getLatestVersion ys with
  | Some a, Some b => VersionUtils.compareVersion (versionOf a) (versionOf b) = 0%Z
  | None, None => True
  | _, _ => False
  end.
Proof.
  intros Hsame.
  destruct (getLatestVersion xs) as [a|] eqn:Ha,
           (getLatestVersion ys) as [b|] eqn:Hb.
  - destruct (getLatestVersion_elem _ _ Ha) as [Hina Hva].
    destruct (getLatestVersion_elem _ _ Hb) as [Hinb Hvb].
    apply compareVersion_both.
    + apply (getLatestVersion_max ys b a Hb); [by apply Hsame | done].
    + apply (getLatestVersion_max xs a b Ha); [by apply Hsame | done].
  - destruct (getLatestVersion_elem _ _ Ha) as [Hina Hva].
    destruct (getLatestVersion_some ys a) as [b Hb']; [by apply Hsame | done |].
    congruence.
  - destruct (getLatestVersion_elem _ _ Hb) as [Hinb Hvb].
    destruct (getLatestVersion_some xs b) as [a Ha']; [by apply Hsame | done |].
    congruence.
  - done.
Qed.

(** ** Interpreters that do not count *)

(** X18. An interpreter that [isCondaEnvironment] rejects, or that has
    no version, has no influence on [getCondaFile]: with or without it in
    the list of the secondary lookup service, the result is the same. *)
Theorem getCondaFile_irrelevant `{RT : Runtime}
    (before after : list PythonInterpreter) (u : PythonInterpreter) :
  isCondaEnvironment u = false \/ hasVersion u = false ->
  getCondaFile (serviceWith (Resolved (before ++ u :: after)))
  = getCondaFile (serviceWith (Resolved (before ++ after))).
Proof.
  intros Hu. rewrite !getCondaFile_resolved. cbv zeta.
  assert (getLatestVersion (List.filter isCondaEnvironment (before ++ u :: after))
          = getLatestVersion (List.filter isCondaEnvironment (before ++ after)))
    as ->; [| done].
  unfold getLatestVersion.
  assert (List.filter hasVersion
            (List.filter isCondaEnvironment (before ++ u :: after))
          = List.filter hasVersion
              (List.filter isCondaEnvironment (before ++ after))) as ->; [| done].
  rewrite !List.filter_app. cbn [List.filter].
  destruct (isCondaEnvironment u) eqn:Hconda; [| done].
  destruct Hu as [? | Hversion]; [done |].
  cbn [List.filter]. by rewrite Hversion.
Qed.

(** * The further properties on the sample platform *)

Lemma getDisplayName_fallback_condition_witness :
  @getDisplayName (Sample.printing "") Sample.sysInfo
  = @getDisplayNameFromSysVersion (Sample.printing "")
      (Some "3.6.1 |Anaconda 4.4.0 (64-bit)| (default, ...)").
Proof.
  apply (proj1 (@getDisplayName_fallback_condition (Sample.printing "")
                  Sample.sysInfo _ eq_refl)).
  repeat split; reflexivity.
Defined.

Lemma getDisplayName_ignores_sys_version_witness :
  @getDisplayName (Sample.printing "")
    (withSysVersion (Some "3.6.1 |Anaconda 4.4.0 (64-bit)|") Sample.fooInfo)
  = @getDisplayName (Sample.printing "") Sample.fooInfo.
Proof.
  apply (@getDisplayName_ignores_sys_version (Sample.printing "")).
  left. discriminate.
Defined.

Lemma getDisplayNameFromSysVersion_no_bar_witness :
  @getDisplayNameFromSysVersion (Sample.printing "") (Some "3.6.1 (default)")
  = "Anaconda".
Proof.
  apply (@getDisplayNameFromSysVersion_no_bar (Sample.printing "")).
  intros Hbar. apply occurs_contains in Hbar. discriminate Hbar.
Defined.

Lemma parseCondaInfo_frame_witness :
  (@parseCondaInfo (Sample.printing "") Sample.fooInfo
     (<[1 := ["/elsewhere"]]> Sample.fooHeap)).2 !! 1
  = Some ["/elsewhere"].
Proof.
  apply (@parseCondaInfo_frame (Sample.printing "")); [reflexivity | discriminate].
Defined.

Lemma parseCondaInfo_nothing_witness :
  (@parseCondaInfo (Sample.printing "") Sample.noInfo ∅).1 = Resolved [].
Proof.
  apply (@parseCondaInfo_nothing (Sample.printing "")); [reflexivity |].
  left. reflexivity.
Defined.

Lemma parseCondaInfo_twice_witness :
  exists interpreters,
    (@parseCondaInfo (Sample.printing "") Sample.fooInfo Sample.fooHeap).1
      = Resolved interpreters
    /\ (@parseCondaInfo (Sample.printing "") Sample.fooInfo
          (@parseCondaInfo (Sample.printing "") Sample.fooInfo Sample.fooHeap).2).1
       = Resolved
           (interpreters ++
              [@interpreterFor (Sample.printing "") Sample.fooInfo
                 (@getDisplayName (Sample.printing "") Sample.fooInfo) "/opt/conda"]).
Proof.
  apply (@parseCondaInfo_twice (Sample.printing "") Sample.fooInfo Sample.fooHeap
           0 ["/opt/conda/envs/foo"; "/nope"] "/opt/conda");
    [reflexivity | reflexivity | reflexivity | discriminate].
Defined.

Lemma parseCondaInfo_again_witness :
  (@parseCondaInfo (Sample.printing "") Sample.rootInfo
     (@parseCondaInfo (Sample.printing "") Sample.rootInfo ∅).2).1
  = (@parseCondaInfo (Sample.printing "") Sample.rootInfo ∅).1.
Proof.
  apply (@parseCondaInfo_again (Sample.printing "")). left. reflexivity.
Defined.

Lemma getCondaFile_provenance_witness :
  "/opt/anaconda/conda.exe" = "conda"
  \/ (@pathExists (Sample.printing "") "/opt/anaconda/conda.exe" = true
      /\ exists i,
           i ∈ [Sample.anaconda; Sample.cpython; Sample.olderAnaconda]
           /\ @isCondaEnvironment (Sample.printing "") i = true
           /\ hasVersion i = true
           /\ "/opt/anaconda/conda.exe"
              = @path_join (Sample.printing "")
                  [@path_dirname (Sample.printing "") (path i); "conda.exe"]).
Proof.
  apply (@getCondaFile_provenance (Sample.printing "")
           [Sample.anaconda; Sample.cpython; Sample.olderAnaconda]).
  reflexivity.
Defined.

Lemma getInterpreters_records_witness :
  (@CondaEnvService_getInterpreters (Sample.discovering "foo") serviceAlone ∅).1
  = Resolved
      (@recordsOf (Sample.discovering "foo") (scalarsOf Sample.fooText)
         ["/opt/conda/envs/foo"; "/nope"; "/opt/conda"]).
Proof.
  apply (@getInterpreters_records (Sample.discovering "foo") serviceAlone ∅
           "conda" Sample.fooText); [reflexivity | discriminate | reflexivity].
Defined.

Lemma getInterpreters_frame_witness :
  (@CondaEnvService_getInterpreters (Sample.discovering "foo") serviceAlone
     Sample.fooHeap).2 !! 0
  = Some ["/opt/conda/envs/foo"; "/nope"].
Proof.
  apply (@getInterpreters_frame (Sample.discovering "foo")). reflexivity.
Defined.

Lemma getLatestVersion_order_witness :
  match getLatestVersion [Sample.anaconda; Sample.olderAnaconda],
        getLatestVersion [Sample.olderAnaconda; Sample.anaconda; Sample.anaconda]
  with
  | Some a, Some b => VersionUtils.compareVersion (versionOf a) (versionOf b) = 0%Z
  | None, None => True
  | _, _ => False
  end.
Proof.
  apply getLatestVersion_order.
  intros i. rewrite !elem_of_cons, !elem_of_nil. tauto.
Defined.

Lemma getCondaFile_irrelevant_witness :
  @getCondaFile (Sample.printing "")
    (serviceWith (Resolved ([Sample.anaconda] ++ Sample.cpython :: [Sample.olderAnaconda])))
  = @getCondaFile (Sample.printing "")
      (serviceWith (Resolved ([Sample.anaconda] ++ [Sample.olderAnaconda]))).
Proof.
  apply (@getCondaFile_irrelevant (Sample.printing "")). left. reflexivity.
Defined.
